(** * Return-date reminder (Google Apps Script, [main.js])

    A shallow embedding of the script that reads the loan sheet, selects the
    titles due tomorrow and posts one message to the LINE messaging API,
    together with the properties its specification states.

    Conventions of the model.
    - Sheet cells are [value]s: the primitives a sheet can hold plus [Date]
      objects, held by their time value.
    - A [Date] time value is [Some t] (milliseconds since the epoch, UTC) or
      [None] for the Invalid Date ([NaN]).  Date arithmetic follows the
      ECMAScript definitions ([Day], [YearFromTime], [MakeDay], [TimeClip],
      ...).  The offset of local time from UTC is the engine's [LocalTZA]:
      it depends on the instant, as the rules of the script's time zone
      have it.
    - Calls into the host ([SpreadsheetApp], [UrlFetchApp], the clock) are
      oracles over an abstract host state; each may return or throw, and
      every call is recorded in the list of emitted events.
    - Strings are byte strings (the UTF-8 encoding of the script's text). *)

From Stdlib Require Import ZArith Znumtheory Lia Bool List String Ascii.
From Stdlib Require Import Decimal DecimalString DecimalZ.
From stdpp Require Import base option list gmap strings.

Local Open Scope Z_scope.

(** ** ECMAScript date arithmetic *)

Module ESDate.

Definition msPerDay : Z := 86400000.

Definition Day (t : Z) : Z := t / msPerDay.

Definition TimeWithinDay (t : Z) : Z := t mod msPerDay.

Definition DaysInYear (y : Z) : Z :=
  if negb (y mod 4 =? 0) then 365
  else if negb (y mod 100 =? 0) then 366
  else if negb (y mod 400 =? 0) then 365
  else 366.

Definition DayFromYear (y : Z) : Z :=
  365 * (y - 1970) + (y - 1969) / 4 - (y - 1901) / 100 + (y - 1601) / 400.

Definition TimeFromYear (y : Z) : Z := msPerDay * DayFromYear y.

(** The largest [y] with [DayFromYear y <= d]: a first guess from the mean
    length of a year, moved by at most one year. *)
Definition YearFromDay (d : Z) : Z :=
  let y := 1970 + (400 * d) / 146097 in
  if d <? DayFromYear y then y - 1
  else if DayFromYear (y + 1) <=? d then y + 1
  else y.

Definition YearFromTime (t : Z) : Z := YearFromDay (Day t).

Definition InLeapYear (t : Z) : Z :=
  if DaysInYear (YearFromTime t) =? 366 then 1 else 0.

Definition DayWithinYear (t : Z) : Z := Day t - DayFromYear (YearFromTime t).

(** Months are numbered from 0 (January) to 11 (December). *)
Definition MonthFromTime (t : Z) : Z :=
  let d := DayWithinYear t in
  let l := InLeapYear t in
  if d <? 31 then 0
  else if d <? 59 + l then 1
  else if d <? 90 + l then 2
  else if d <? 120 + l then 3
  else if d <? 151 + l then 4
  else if d <? 181 + l then 5
  else if d <? 212 + l then 6
  else if d <? 243 + l then 7
  else if d <? 273 + l then 8
  else if d <? 304 + l then 9
  else if d <? 334 + l then 10
  else 11.

(** Number of days of the year before the first day of month [m]. *)
Definition MonthStart (m l : Z) : Z :=
  if m =? 0 then 0
  else if m =? 1 then 31
  else if m =? 2 then 59 + l
  else if m =? 3 then 90 + l
  else if m =? 4 then 120 + l
  else if m =? 5 then 151 + l
  else if m =? 6 then 181 + l
  else if m =? 7 then 212 + l
  else if m =? 8 then 243 + l
  else if m =? 9 then 273 + l
  else if m =? 10 then 304 + l
  else 334 + l.

Definition DateFromTime (t : Z) : Z :=
  DayWithinYear t - MonthStart (MonthFromTime t) (InLeapYear t) + 1.

(** Year, month (from 0) and day of the month of a time value. *)
Definition civil (t : Z) : Z * Z * Z :=
  (YearFromTime t, MonthFromTime t, DateFromTime t).

(** [MakeDay year month date]: the day number of the first of the month
    plus [date - 1]; months outside 0..11 carry into the year. *)
Definition MakeDay (year month date : Z) : Z :=
  let ym := year + month / 12 in
  let mn := month mod 12 in
  let l := if DaysInYear ym =? 366 then 1 else 0 in
  DayFromYear ym + MonthStart mn l + date - 1.

Definition MakeDate (day time : Z) : Z := day * msPerDay + time.

Definition maxTime : Z := 8640000000000000.

Definition TimeClip (time : Z) : option Z :=
  if maxTime <? Z.abs time then None else Some time.

End ESDate.

(** ** Values *)

(** A JavaScript number: [NaN], an infinity, or [(-1)^s * m * 2^e]. *)
Inductive number : Type :=
  | NaN
  | Inf (negative : bool)
  | Fin (negative : bool) (m : N) (e : Z).

(** What a sheet cell, a setting or a title can be.  A [Date] object is held
    by its time value; [None] is the Invalid Date. *)
Inductive value : Type :=
  | VUndefined
  | VNull
  | VBool (b : bool)
  | VNum (n : number)
  | VStr (s : string)
  | VDate (t : option Z).

(** A value that may also be a plain object, as [getConfig] builds one. *)
Inductive jsval : Type :=
  | Prim (v : value)
  | Obj (fields : gmap string value).

(** The argument of [JSON.stringify] in [sendMessageToLINE]: an object
    [{ to, messages: [{ type, text }] }]. *)
Record text_message : Type := { type : value; text : value }.
Record push_body : Type := { to : value; messages : list text_message }.

(** A function either returns or throws an error with a message. *)
Inductive result (A : Type) : Type :=
  | Ok (a : A)
  | Throw (message : string).
Arguments Ok {A} a.
Arguments Throw {A} message.

(** The parts of the JavaScript engine the script relies on and that are not
    spelled out here: printing of numbers and dates, [JSON.stringify], and
    the offset of local time.  [LocalTZA t true] is the offset in force at
    the instant [t]; [LocalTZA t false] is the offset by which the local
    time [t] is read (the one before the change, for a local time that a
    change of offset skips or repeats). *)
Class Runtime : Type := {
  Number_toString : number -> string;
  Date_toString : option Z -> string;
  Date_toLocaleString : option Z -> string;
  JSON_stringify : push_body -> string;
  LocalTZA : Z -> bool -> Z
}.

Definition nl : string := String (ascii_of_nat 10) EmptyString.

(** [String(n)] for an integer [n] below [10^21], [NaN] for [None]. *)
Definition Z_toString (z : Z) : string := NilZero.string_of_int (Z.to_int z).

Definition num_toString (n : option Z) : string :=
  match n with
  | Some z => Z_toString z
  | None => "NaN"
  end.

(** [n + k] on numbers that are integers or [NaN]. *)
Definition num_add (n : option Z) (k : Z) : option Z :=
  match n with
  | Some z => Some (z + k)
  | None => None
  end.

Fixpoint repeat_string (n : nat) (s : string) : string :=
  match n with
  | O => EmptyString
  | S n' => s +:+ repeat_string n' s
  end.

(** [str.padStart(maxLength, fillString)] *)
Definition padStart (str : string) (maxLength : nat) (fillString : string) : string :=
  let fillLen := (maxLength - String.length str)%nat in
  if (fillLen =? 0)%nat then str
  else if (String.length fillString =? 0)%nat then str
  else substring 0 fillLen (repeat_string fillLen fillString) +:+ str.

Definition number_truthy (n : number) : bool :=
  match n with
  | NaN => false
  | Inf _ => true
  | Fin _ m _ => negb (m =? 0)%N
  end.

(** [x === y] on numbers. *)
Definition number_equals (x y : number) : bool :=
  match x, y with
  | Inf a, Inf b => Bool.eqb a b
  | Fin a m e, Fin b k f =>
      let g := Z.min e f in
      (Z.of_N m * 2 ^ (e - g) =? Z.of_N k * 2 ^ (f - g))
      && (Bool.eqb a b || (m =? 0)%N)
  | _, _ => false
  end.

(** [ToBoolean] *)
Definition ToBoolean (v : value) : bool :=
  match v with
  | VUndefined | VNull => false
  | VBool b => b
  | VNum n => number_truthy n
  | VStr s => negb (String.eqb s EmptyString)
  | VDate _ => true
  end.

Definition truthy (v : jsval) : bool :=
  match v with
  | Prim p => ToBoolean p
  | Obj _ => true
  end.

(** [x === y].  Two [Date]s are equal only when they are the same object;
    a cell read from a sheet is never the object it is compared with. *)
Definition strict_equals (x y : value) : bool :=
  match x, y with
  | VUndefined, VUndefined => true
  | VNull, VNull => true
  | VBool a, VBool b => Bool.eqb a b
  | VNum a, VNum b => number_equals a b
  | VStr a, VStr b => String.eqb a b
  | _, _ => false
  end.

(** [row[i]]: [undefined] outside the array. *)
Definition cell (row : list value) (i : nat) : value :=
  match row !! i with
  | Some v => v
  | None => VUndefined
  end.

(** The keys the script reads from the configuration. *)
Inductive setting_name : Type := URL | ACCESS_TOKEN | TO_USER_ID.

Definition key_of (key : setting_name) : string :=
  match key with
  | URL => "URL"
  | ACCESS_TOKEN => "ACCESS_TOKEN"
  | TO_USER_ID => "TO_USER_ID"
  end.

(** The store of [Date] objects: a reference names the time value of its
    object. *)
Abbreviation store := (list (option Z)).
Abbreviation ref := nat.

Section Engine.
Context `{RT : Runtime}.

(** [ToString] *)
Definition ToString (v : value) : string :=
  match v with
  | VUndefined => "undefined"
  | VNull => "null"
  | VBool true => "true"
  | VBool false => "false"
  | VNum n => Number_toString n
  | VStr s => s
  | VDate t => Date_toString t
  end.

(** [array.join(separator)]: [undefined] and [null] print as nothing. *)
Definition join_item (v : value) : string :=
  match v with
  | VUndefined | VNull => EmptyString
  | _ => ToString v
  end.

Definition join (items : list value) (separator : string) : string :=
  String.concat separator (map join_item items).

(** [object.key] for the three keys the script reads.  It is a [TypeError]
    on [undefined] and [null].  No prototype defines one of these keys (not
    that of plain objects, of [Date]s or of the primitives), so the value is
    the object's own entry, [undefined] when it has none. *)
Definition get_field (object : jsval) (key : setting_name) : result value :=
  match object with
  | Prim VUndefined =>
      Throw ("Cannot read properties of undefined (reading '" +:+ key_of key +:+ "')")
  | Prim VNull =>
      Throw ("Cannot read properties of null (reading '" +:+ key_of key +:+ "')")
  | Prim _ => Ok VUndefined
  | Obj fields =>
      match fields !! key_of key with
      | Some v => Ok v
      | None => Ok VUndefined
      end
  end.

(** [object[key] = v] on an object made by [{}]: the key [__proto__] is
    taken by the setter of [Object.prototype] and makes no own property. *)
Definition set_field (fields : gmap string value) (key v : value) : gmap string value :=
  let k := ToString key in
  if String.eqb k "__proto__" then fields else <[k := v]> fields.

Definition LocalTime (t : Z) : Z := t + LocalTZA t true.
Definition UTC (t : Z) : Z := t - LocalTZA t false.

(** Getters of [Date.prototype], on the time value. *)
Definition getFullYear (t : option Z) : option Z :=
  match t with
  | Some t => Some (ESDate.YearFromTime (LocalTime t))
  | None => None
  end.

Definition getMonth (t : option Z) : option Z :=
  match t with
  | Some t => Some (ESDate.MonthFromTime (LocalTime t))
  | None => None
  end.

Definition getDate (t : option Z) : option Z :=
  match t with
  | Some t => Some (ESDate.DateFromTime (LocalTime t))
  | None => None
  end.

(** [Date.prototype.setDate]: the new time value. *)
Definition setDate_value (t : option Z) (dt : option Z) : option Z :=
  match t with
  | None => None
  | Some t =>
      match dt with
      | None => None
      | Some dt =>
          let lt := LocalTime t in
          let newDate :=
            ESDate.MakeDate
              (ESDate.MakeDay (ESDate.YearFromTime lt) (ESDate.MonthFromTime lt) dt)
              (ESDate.TimeWithinDay lt) in
          ESDate.TimeClip (UTC newDate)
      end
  end.

(** *** formatDate *)

Definition formatDate (date : value) : value :=
  match date with
  | VDate t =>
      let year := getFullYear t in
      let month := padStart (num_toString (num_add (getMonth t) 1)) 2 "0" in
      let day := padStart (num_toString (getDate t)) 2 "0" in
      VStr (num_toString year +:+ "/" +:+ month +:+ "/" +:+ day)
  | _ => date
  end.

(** *** Date objects and addDays

    [Date] objects are mutable: [setDate] updates its receiver.  The store
    maps a reference to the time value of the object it names. *)


Definition thisTimeValue (h : store) (d : ref) : option Z :=
  match h !! d with
  | Some t => t
  | None => None
  end.

(** [new Date(t)]: a fresh object. *)
Definition new_Date (h : store) (t : option Z) : store * ref :=
  (h ++ [t], length h).

Definition setDate (h : store) (d : ref) (dt : option Z) : store :=
  <[d := setDate_value (thisTimeValue h d) dt]> h.

Definition addDays (h : store) (date : ref) (days : Z) : store * ref :=
  let '(h1, newDate) := new_Date h (thisTimeValue h date) in
  let h2 := setDate h1 newDate (num_add (getDate (thisTimeValue h1 newDate)) days) in
  (h2, newDate).

End Engine.

(** ** The host: spreadsheet service, fetch service, clock *)

(** Objects of the host (spreadsheets, sheets, ranges) are opaque references. *)
Definition handle := N.

(** The second argument of [UrlFetchApp.fetch]. *)
Record fetch_params : Type := {
  method : string;
  headers : list (string * string);
  payload : string
}.

(** One entry per call into a host service, with its arguments. *)
Inductive event : Type :=
  | CallGetActiveSpreadsheet
  | CallGetSheetByName (spreadsheet : handle) (name : string)
  | CallInsertSheet (spreadsheet : handle) (name : string)
  | CallGetLastRow (sheet : handle)
  | CallGetRange (sheet : handle) (row column numRows numColumns : Z)
  | CallGetDataRange (sheet : handle)
  | CallGetValues (range : handle)
  | CallAppendRow (sheet : handle) (rowContents : list value)
  | CallFetch (url : value) (params : fetch_params).

(** The services as oracles over a host state [Ext]: any of them may throw,
    and what they return may depend on everything that happened before.
    Reading the clock ([new Date()]) cannot throw. *)
Class Host : Type := {
  Ext : Type;
  host_getActiveSpreadsheet : Ext -> result handle * Ext;
  host_getSheetByName : handle -> string -> Ext -> result (option handle) * Ext;
  host_insertSheet : handle -> string -> Ext -> result handle * Ext;
  host_getLastRow : handle -> Ext -> result Z * Ext;
  host_getRange : handle -> Z -> Z -> Z -> Z -> Ext -> result handle * Ext;
  host_getDataRange : handle -> Ext -> result handle * Ext;
  host_getValues : handle -> Ext -> result (list (list value)) * Ext;
  host_appendRow : handle -> list value -> Ext -> result unit * Ext;
  host_fetch : value -> fetch_params -> Ext -> result unit * Ext;
  host_now : Ext -> Z * Ext
}.

(** What running a piece of the script yields: its result, the host state it
    leaves, and the host calls it made, in order. *)
Record outcome `{Host} (A : Type) : Type := {
  res : result A;
  final : Ext;
  emitted : list event
}.
Arguments res {_ _} _.
Arguments final {_ _} _.
Arguments emitted {_ _} _.
Arguments Build_outcome {_ _} _ _ _.

Section Monad.
Context `{HO : Host}.

Definition M (A : Type) : Type := Ext -> outcome A.

Definition ret {A} (a : A) : M A :=
  fun s => {| res := Ok a; final := s; emitted := [] |}.

Definition throw {A} (message : string) : M A :=
  fun s => {| res := Throw message; final := s; emitted := [] |}.

Definition bind {A B} (m : M A) (k : A -> M B) : M B :=
  fun s =>
    let o := m s in
    match res o with
    | Ok a =>
        let o' := k a (final o) in
        {| res := res o'; final := final o'; emitted := emitted o ++ emitted o' |}
    | Throw e => {| res := Throw e; final := final o; emitted := emitted o |}
    end.

(** [try { body } catch (error) { handler(error.message) }] *)
Definition try_catch {A} (body : M A) (handler : string -> M A) : M A :=
  fun s =>
    let o := body s in
    match res o with
    | Ok a => o
    | Throw e =>
        let o' := handler e (final o) in
        {| res := res o'; final := final o'; emitted := emitted o ++ emitted o' |}
    end.

Definition lift {A} (r : result A) : M A :=
  match r with
  | Ok a => ret a
  | Throw e => throw e
  end.

(** A call into the host: ask the oracle and record the call. *)
Definition call {A} (ev : event) (oracle : Ext -> result A * Ext) : M A :=
  fun s =>
    let '(r, s') := oracle s in
    {| res := r; final := s'; emitted := [ev] |}.

Definition getActiveSpreadsheet : M handle :=
  call CallGetActiveSpreadsheet host_getActiveSpreadsheet.

Definition getSheetByName (ss : handle) (name : string) : M (option handle) :=
  call (CallGetSheetByName ss name) (host_getSheetByName ss name).

Definition insertSheet (ss : handle) (name : string) : M handle :=
  call (CallInsertSheet ss name) (host_insertSheet ss name).

Definition getLastRow (sheet : handle) : M Z :=
  call (CallGetLastRow sheet) (host_getLastRow sheet).

Definition getRange (sheet : handle) (row column numRows numColumns : Z) : M handle :=
  call (CallGetRange sheet row column numRows numColumns)
       (host_getRange sheet row column numRows numColumns).

Definition getDataRange (sheet : handle) : M handle :=
  call (CallGetDataRange sheet) (host_getDataRange sheet).

Definition getValues (range : handle) : M (list (list value)) :=
  call (CallGetValues range) (host_getValues range).

Definition appendRow (sheet : handle) (rowContents : list value) : M unit :=
  call (CallAppendRow sheet rowContents) (host_appendRow sheet rowContents).

Definition fetch (url : value) (params : fetch_params) : M unit :=
  call (CallFetch url params) (host_fetch url params).

(** [new Date()]: the time value of the fresh object. *)
Definition now : M Z :=
  fun s =>
    let '(t, s') := host_now s in
    {| res := Ok t; final := s'; emitted := [] |}.

End Monad.

Notation "'let*' x ':=' m 'in' k" := (bind m (fun x => k))
  (at level 10, x name, m at level 100, k at level 200).
Notation "m ';;' k" := (bind m (fun _ => k))
  (at level 100, k at level 200, right associativity).

(** ** The script *)

Definition SETTINGS_SHEET_NAME : string := "設定".
Definition DATA_SHEET_NAME : string := "返却期限".
Definition ERROR_LOG_SHEET_NAME : string := "エラーログ".

Definition MESSAGE_HEADER : string := "以下の本の返却期限が明日です:".
Definition MESSAGE_URL : string := "https://libweb.city.setagaya.tokyo.jp/rentallist".

Definition CONFIG_ERROR : string :=
  "設定情報が正しく取得できませんでした。設定シートの内容を確認してください。".
Definition SEND_ARGUMENT_ERROR : string :=
  "sendMessageToLINE関数に必要な引数が渡されていません。".

Section Script.
Context `{RT : Runtime} `{HO : Host}.

(** *** logError *)

Definition logError (errorMessage : string) : M unit :=
  let* ss := getActiveSpreadsheet in
  let* found := getSheetByName ss ERROR_LOG_SHEET_NAME in
  let* sheet :=
    match found with
    | Some sh => ret sh
    | None =>
        let* ss' := getActiveSpreadsheet in
        insertSheet ss' ERROR_LOG_SHEET_NAME
    end in
  let* t := now in
  appendRow sheet [VStr (Date_toLocaleString (Some t)); VStr errorMessage].

(** *** getConfig *)

(** The body of [data.forEach(([key, value]) => { config[key] = value; })]. *)
Definition config_of_rows (data : list (list value)) : gmap string value :=
  fold_left (fun config row => set_field config (cell row 0) (cell row 1)) data ∅.

(** The [catch] block of [getConfig]. *)
Definition catch_getConfig (message : string) : M jsval :=
  logError ("getConfig関数でエラー: " +:+ message) ;;
  ret (Prim VNull).

(** The [try] block of [getConfig]. *)
Definition try_getConfig : M jsval :=
  let* ss := getActiveSpreadsheet in
  let* sheet := getSheetByName ss SETTINGS_SHEET_NAME in
  match sheet with
  | None =>
      logError "設定シートが見つかりません。" ;;
      ret (Prim VNull)
  | Some sheet =>
      let* lastRow := getLastRow sheet in
      let* range := getRange sheet 1 1 lastRow 2 in
      let* data := getValues range in
      ret (Obj (config_of_rows data))
  end.

Definition getConfig : M jsval := try_catch try_getConfig catch_getConfig.

(** *** getBooksDueOnDate *)

(** The callback of [filter]. *)
Definition is_due (targetDate : value) (row : list value) : bool :=
  let dueDate := cell row 6 in
  let dueDateString := formatDate dueDate in
  strict_equals dueDateString targetDate.

(** [data.slice(1).filter(...).map(row => row[3])] *)
Definition dueBooks (targetDate : value) (data : list (list value)) : list value :=
  map (fun row => cell row 3) (List.filter (is_due targetDate) (drop 1 data)).

(** The [catch] block of [getBooksDueOnDate]. *)
Definition catch_getBooksDueOnDate (message : string) : M (list value) :=
  logError ("getBooksDueOnDate関数でエラー: " +:+ message) ;;
  ret [].

(** The [try] block of [getBooksDueOnDate]. *)
Definition try_getBooksDueOnDate (targetDate : value) : M (list value) :=
  let* ss := getActiveSpreadsheet in
  let* sheet := getSheetByName ss DATA_SHEET_NAME in
  match sheet with
  | None =>
      logError "返却期限シートが見つかりません。" ;;
      ret []
  | Some sheet =>
      let* range := getDataRange sheet in
      let* data := getValues range in
      ret (dueBooks targetDate data)
  end.

Definition getBooksDueOnDate (targetDate : value) : M (list value) :=
  try_catch (try_getBooksDueOnDate targetDate) catch_getBooksDueOnDate.

(** *** sendMessageToLINE *)

(** The options object passed to [UrlFetchApp.fetch]. *)
Definition fetch_options (accessToken toUserId message : value) : fetch_params :=
  {| method := "post";
     headers :=
       [("Content-Type", "application/json; charset=UTF-8");
        ("Authorization", "Bearer " +:+ ToString accessToken)];
     payload :=
       JSON_stringify
         {| to := toUserId;
            messages := [{| type := VStr "text"; text := message |}] |} |}.

(** The [catch] block of [sendMessageToLINE]. *)
Definition catch_sendMessageToLINE (message : string) : M unit :=
  logError ("sendMessageToLINE関数でエラー: " +:+ message).

(** The [try] block of [sendMessageToLINE]. *)
Definition try_sendMessageToLINE (config : jsval) (message : value) : M unit :=
  if negb (truthy config) || negb (ToBoolean message) then
    logError SEND_ARGUMENT_ERROR
  else
    let* url := lift (get_field config URL) in
    let* accessToken := lift (get_field config ACCESS_TOKEN) in
    let* toUserId := lift (get_field config TO_USER_ID) in
    fetch url (fetch_options accessToken toUserId message).

Definition sendMessageToLINE (config : jsval) (message : value) : M unit :=
  try_catch (try_sendMessageToLINE config message) catch_sendMessageToLINE.

(** *** checkReturnDatesAndNotify *)

(** [a || b] where [b] is evaluated only when [a] is false. *)
Definition or_else (a b : result bool) : result bool :=
  match a with
  | Ok true => Ok true
  | Ok false => b
  | Throw e => Throw e
  end.

Definition not_field (object : jsval) (key : setting_name) : result bool :=
  match get_field object key with
  | Ok v => Ok (negb (ToBoolean v))
  | Throw e => Throw e
  end.

(** [!config || !config.URL || !config.ACCESS_TOKEN || !config.TO_USER_ID] *)
Definition settings_missing (config : jsval) : result bool :=
  or_else (Ok (negb (truthy config)))
    (or_else (not_field config URL)
       (or_else (not_field config ACCESS_TOKEN)
          (not_field config TO_USER_ID))).

(** The template literal that makes the message. *)
Definition build_message (returnBooks : list value) : string :=
  MESSAGE_HEADER +:+ nl +:+ join returnBooks nl +:+ nl +:+ nl +:+ MESSAGE_URL.

(** [formatDate(addDays(new Date(), 1))], the clock having read [t]. *)
Definition tomorrow_of (t : Z) : value :=
  let '(h0, today) := new_Date [] (Some t) in
  let '(h1, next) := addDays h0 today 1 in
  formatDate (VDate (thisTimeValue h1 next)).

(** The [catch] block of [checkReturnDatesAndNotify]. *)
Definition catch_checkReturnDatesAndNotify (message : string) : M unit :=
  logError ("checkReturnDatesAndNotify関数でエラー: " +:+ message).

(** The [try] block of [checkReturnDatesAndNotify]. *)
Definition try_checkReturnDatesAndNotify : M unit :=
  let* config := getConfig in
  let* missing := lift (settings_missing config) in
  if missing then
    logError CONFIG_ERROR
  else
    let* t := now in
    let tomorrow := tomorrow_of t in
    let* returnBooks := getBooksDueOnDate tomorrow in
    if (0 <? length returnBooks)%nat then
      sendMessageToLINE config (VStr (build_message returnBooks))
    else
      ret tt.

Definition checkReturnDatesAndNotify : M unit :=
  try_catch try_checkReturnDatesAndNotify catch_checkReturnDatesAndNotify.

End Script.

(** ** What the specification says, in its own words *)

Module Spec.
Section Spec.
Context `{RT : Runtime}.

(** Two decimal digits, the first one [0] below ten. *)
Definition digit (n : Z) : ascii := ascii_of_nat (48 + Z.to_nat n).

Definition two_digits (n : Z) : string :=
  String (digit (n / 10)) (String (digit (n mod 10)) EmptyString).

(** The pattern [YYYY/MM/DD]: four digits, a slash, two digits, a slash,
    two digits. *)
Definition is_digit (c : ascii) : bool :=
  (48 <=? nat_of_ascii c)%nat && (nat_of_ascii c <=? 57)%nat.

Fixpoint digits (n : nat) (s : string) : bool :=
  match n, s with
  | O, EmptyString => true
  | S n', String c rest => is_digit c && digits n' rest
  | _, _ => false
  end.

Definition YYYY_MM_DD (s : string) : bool :=
  digits 4 (substring 0 4 s)
  && String.eqb (substring 4 1 s) "/"
  && digits 2 (substring 5 2 s)
  && String.eqb (substring 7 1 s) "/"
  && digits 2 (substring 8 2 s)
  && (String.length s =? 10)%nat.

(** The due-date cell, formatted, is the target string. *)
Definition due_on (target : string) (row : list value) : bool :=
  match formatDate (cell row 6) with
  | VStr s => String.eqb s target
  | _ => false
  end.

(** The titles of the rows due on [target], row by row. *)
Fixpoint titles_due (target : string) (rows : list (list value)) : list value :=
  match rows with
  | [] => []
  | row :: rest =>
      if due_on target row then cell row 3 :: titles_due target rest
      else titles_due target rest
  end.

(** The calendar, a day at a time: year, month (from 0) and day of month. *)
Definition is_leap (y : Z) : bool :=
  ((y mod 4 =? 0) && negb (y mod 100 =? 0)) || (y mod 400 =? 0).

Definition days_in_month (y m : Z) : Z :=
  if m =? 1 then (if is_leap y then 29 else 28)
  else if (m =? 3) || (m =? 5) || (m =? 8) || (m =? 10) then 30
  else 31.

Definition next_day (date : Z * Z * Z) : Z * Z * Z :=
  let '(y, m, d) := date in
  if d <? days_in_month y m then (y, m, d + 1)
  else if m <? 11 then (y, m + 1, 1)
  else (y + 1, 0, 1).

(** The local calendar date of a time value. *)
Definition calendar_date (t : Z) : Z * Z * Z := ESDate.civil (LocalTime t).

(** The lines of the notification, top to bottom. *)
Definition message_lines (titles : list string) : list string :=
  [MESSAGE_HEADER] ++ titles ++ [EmptyString; MESSAGE_URL].

(** The settings the orchestrator cannot run with. *)
Definition setting_absent_or_empty (config : jsval) (key : string) : Prop :=
  match config with
  | Obj fields => fields !! key = None \/ fields !! key = Some (VStr EmptyString)
  | Prim _ => True
  end.

Definition configuration_unusable (config : jsval) : Prop :=
  config = Prim VNull
  \/ setting_absent_or_empty config "URL"
  \/ setting_absent_or_empty config "ACCESS_TOKEN"
  \/ setting_absent_or_empty config "TO_USER_ID".

End Spec.
End Spec.

(** ** Reading the list of host calls *)

Definition is_fetch (ev : event) : bool :=
  match ev with
  | CallFetch _ _ => true
  | _ => false
  end.

Definition is_append (ev : event) : bool :=
  match ev with
  | CallAppendRow _ _ => true
  | _ => false
  end.

Definition fetches (evs : list event) : nat := length (List.filter is_fetch evs).
Definition appends (evs : list event) : nat := length (List.filter is_append evs).

(** A call of the filtering step: looking up or reading the loan sheet. *)
Definition is_loans_call (ev : event) : bool :=
  match ev with
  | CallGetSheetByName _ name => String.eqb name DATA_SHEET_NAME
  | CallGetDataRange _ => true
  | _ => false
  end.

(** Neither a request nor a call of the filtering step. *)
Definition is_quiet (ev : event) : bool := negb (is_fetch ev) && negb (is_loans_call ev).

Definition not_fetch (ev : event) : bool := negb (is_fetch ev).

(** Every call [m] makes satisfies [P]. *)
Definition only `{Host} {A} (P : event -> bool) (m : M A) : Prop :=
  forall s, forallb P (emitted (m s)) = true.

(** The outcome [o], the calls [evs] made before it. *)
Definition after `{Host} {A} (evs : list event) (o : outcome A) : outcome A :=
  {| res := res o; final := final o; emitted := evs ++ emitted o |}.

(** Running [k] from where [o] stopped. *)
Definition and_then `{Host} {A B} (o : outcome A) (k : M B) : outcome B :=
  let o' := k (final o) in
  {| res := res o'; final := final o'; emitted := emitted o ++ emitted o' |}.

Section Runs.
Context `{RT : Runtime} `{HO : Host}.

(** The run from [s] has read a complete [config] and its filtering step
    has returned [returnBooks]; [o] is the run up to there. *)
Definition due_list (s : Ext) (config : jsval) (returnBooks : list value)
    (o : outcome (list value)) : Prop :=
  res (getConfig s) = Ok config
  /\ settings_missing config = Ok false
  /\ o = and_then (getConfig s) (let* t := now in getBooksDueOnDate (tomorrow_of t))
  /\ res o = Ok returnBooks.

End Runs.

(** ** Further readings of the code *)

(** The number of sheets inserted. *)
Definition is_insert (ev : event) : bool :=
  match ev with
  | CallInsertSheet _ _ => true
  | _ => false
  end.

Definition inserts (evs : list event) : nat := length (List.filter is_insert evs).

(** The messages of the rows appended, in order: the second cell of each. *)
Definition logged_messages (evs : list event) : list value :=
  flat_map (fun ev =>
              match ev with
              | CallAppendRow _ rowContents => [cell rowContents 1]
              | _ => []
              end) evs.

(** The character [c] does not occur in [s]. *)
Fixpoint free_of (c : ascii) (s : string) : bool :=
  match s with
  | EmptyString => true
  | String a rest => negb (Ascii.eqb a c) && free_of c rest
  end.

Section Readings.
Context `{RT : Runtime}.

(** The value of the last row of the settings table whose key prints as
    [key]. *)
Fixpoint last_setting (key : string) (data : list (list value)) : option value :=
  match data with
  | [] => None
  | row :: rest =>
      match last_setting key rest with
      | Some v => Some v
      | None =>
          if String.eqb (ToString (cell row 0)) key then Some (cell row 1) else None
      end
  end.

(** [config.key], for the three keys the script reads, of a [config] that
    is not [null] or [undefined]. *)
Definition setting (config : jsval) (key : setting_name) : value :=
  match config with
  | Obj fields =>
      match fields !! key_of key with
      | Some v => v
      | None => VUndefined
      end
  | Prim _ => VUndefined
  end.

(** All three settings are there and truthy. *)
Definition settings_complete (config : jsval) : bool :=
  truthy config
  && ToBoolean (setting config URL)
  && ToBoolean (setting config ACCESS_TOKEN)
  && ToBoolean (setting config TO_USER_ID).

(** The request [sendMessageToLINE] makes. *)
Definition line_request (config : jsval) (message : value) : event :=
  CallFetch (setting config URL)
    (fetch_options (setting config ACCESS_TOKEN) (setting config TO_USER_ID) message).

End Readings.

Section Recovery.
Context `{RT : Runtime} `{HO : Host}.


End Recovery.

(** ** Time zones

    A time zone as the engine knows it: the offset in force before the first
    change, and the changes in order, each with its instant and the offset
    from then on (all in milliseconds). *)

Module Zone.

Record zone : Type := {
  first_offset : Z;
  changes : list (Z * Z)
}.

(** The offset in force at the instant [t]. *)
Fixpoint offset_at (before : Z) (l : list (Z * Z)) (t : Z) : Z :=
  match l with
  | [] => before
  | (instant, after) :: rest =>
      if t <? instant then before else offset_at after rest t
  end.

(** The offset by which the local time [t] is read: that of the period the
    local time falls in; the one before the change for a local time that the
    change skips, and for one that it repeats. *)
Fixpoint offset_of_local (before : Z) (l : list (Z * Z)) (t : Z) : Z :=
  match l with
  | [] => before
  | (instant, after) :: rest =>
      if t - before <? instant then before
      else if t - after <? instant then before
      else offset_of_local after rest t
  end.

Definition offset (z : zone) (t : Z) (isUTC : bool) : Z :=
  if isUTC then offset_at (first_offset z) (changes z) t
  else offset_of_local (first_offset z) (changes z) t.

Definition hour : Z := 3600000.

(** Asia/Tokyo: local mean time (9:18:59) until the end of 1887, then nine
    hours, with summer time (ten hours) from May, or April, to September in
    1948 to 1951. *)
Definition Tokyo : zone := {|
  first_offset := 33539000;
  changes :=
    [(-2587712400000, 9 * hour);
     (-683802000000, 10 * hour); (-672310800000, 9 * hour);
     (-654771600000, 10 * hour); (-640861200000, 9 * hour);
     (-620298000000, 10 * hour); (-609411600000, 9 * hour);
     (-588848400000, 10 * hour); (-577962000000, 9 * hour)]
|}.

(** Pacific/Apia around the end of 2011: ten hours behind UTC until the end
    of the 29th of December, fourteen hours ahead from then on; the zone has
    no 30th of December 2011. *)
Definition Apia : zone := {|
  first_offset := -10 * hour;
  changes := [(1325239200000, 14 * hour)]
|}.

End Zone.

(** ** An in-memory host

    A spreadsheet held as a list of named tabs, a clock that stands still,
    and two switches: [down] makes every service throw, [unreadable] makes
    reading cell values throw. *)

Module InMemory.

Record book : Type := {
  tabs : list (string * list (list value));
  clock : Z
}.

Definition unavailable : string := "Service unavailable".

Fixpoint find_tab (name : string) (l : list (string * list (list value))) (i : N) : option N :=
  match l with
  | [] => None
  | (n, _) :: rest => if String.eqb n name then Some i else find_tab name rest (i + 1)%N
  end.

Definition rows_of (b : book) (sheet : handle) : list (list value) :=
  match tabs b !! N.to_nat sheet with
  | Some (_, rows) => rows
  | None => []
  end.

Definition append_to (b : book) (sheet : handle) (row : list value) : book :=
  {| tabs := alter (fun tab => (fst tab, snd tab ++ [row])) (N.to_nat sheet) (tabs b);
     clock := clock b |}.

Definition guarded {A} (down : bool) (f : book -> result A * book) (b : book) : result A * book :=
  if down then (Throw unavailable, b) else f b.

Definition host (down unreadable : bool) : Host := {|
  Ext := book;
  host_getActiveSpreadsheet := guarded down (fun b => (Ok 0%N, b));
  host_getSheetByName := fun _ name => guarded down (fun b => (Ok (find_tab name (tabs b) 0%N), b));
  host_insertSheet := fun _ name =>
    guarded down (fun b =>
      (Ok (N.of_nat (length (tabs b))), {| tabs := tabs b ++ [(name, [])]; clock := clock b |}));
  host_getLastRow := fun sheet => guarded down (fun b => (Ok (Z.of_nat (length (rows_of b sheet))), b));
  host_getRange := fun sheet _ _ numRows _ =>
    guarded down (fun b =>
      if numRows <? 1 then (Throw "The number of rows in the range must be at least 1.", b)
      else (Ok sheet, b));
  host_getDataRange := fun sheet => guarded down (fun b => (Ok sheet, b));
  host_getValues := fun range =>
    guarded (down || unreadable) (fun b => (Ok (rows_of b range), b));
  host_appendRow := fun sheet row => guarded down (fun b => (Ok tt, append_to b sheet row));
  host_fetch := fun _ _ => guarded down (fun b => (Ok tt, b));
  host_now := fun b => (clock b, b)
|}.

(** An engine in the time zone Asia/Tokyo; the printers are stand-ins. *)
Definition runtime : Runtime := {|
  Number_toString := fun _ => "0";
  Date_toString := num_toString;
  Date_toLocaleString := num_toString;
  JSON_stringify := fun body => "{}";
  LocalTZA := Zone.offset Zone.Tokyo
|}.

(** The same engine in the time zone Pacific/Apia. *)
Definition runtime_in_Apia : Runtime := {|
  Number_toString := fun _ => "0";
  Date_toString := num_toString;
  Date_toLocaleString := num_toString;
  JSON_stringify := fun body => "{}";
  LocalTZA := Zone.offset Zone.Apia
|}.

Definition blank : value := VStr EmptyString.

Definition loan_row (title due : value) : list value :=
  [blank; blank; blank; title; blank; blank; due].

Definition settings : list (list value) :=
  [[VStr "URL"; VStr "https://api.line.me/v2/bot/message/push"];
   [VStr "ACCESS_TOKEN"; VStr "token"];
   [VStr "TO_USER_ID"; VStr "U1"]].

(** Noon of 4 January 2024 in Tokyo. *)
Definition jan4 : Z := 1704337200000.

(** Midnight of 5 January 2024 in Tokyo. *)
Definition jan5 : Z := 1704380400000.

Definition library (config : list (list value)) (loans : list (list value)) : book :=
  {| tabs := [(SETTINGS_SHEET_NAME, config);
              (DATA_SHEET_NAME, loan_row (VStr "Title") (VStr "DueDate") :: loans);
              (ERROR_LOG_SHEET_NAME, [])];
     clock := jan4 |}.

End InMemory.

(** The in-memory host with the messaging endpoint out of reach: every
    request throws, the spreadsheet works. *)
Module Offline.

Definition unreachable : string := "Address unavailable".

Definition host : Host :=
  let working := InMemory.host false false in
  {| Ext := InMemory.book;
     host_getActiveSpreadsheet := @host_getActiveSpreadsheet working;
     host_getSheetByName := @host_getSheetByName working;
     host_insertSheet := @host_insertSheet working;
     host_getLastRow := @host_getLastRow working;
     host_getRange := @host_getRange working;
     host_getDataRange := @host_getDataRange working;
     host_getValues := @host_getValues working;
     host_appendRow := @host_appendRow working;
     host_fetch := fun _ _ b => (Throw unreachable, b);
     host_now := @host_now working |}.

End Offline.

(** The in-memory host after an outage: each of the first [outage] calls of
    a service throws, the services work from then on. *)
Module Recovering.

Record state : Type := {
  outage : nat;
  served : InMemory.book
}.

Definition flaky {A} (f : InMemory.book -> result A * InMemory.book) (s : state)
    : result A * state :=
  match outage s with
  | S n => (Throw InMemory.unavailable, {| outage := n; served := served s |})
  | O => let '(r, b) := f (served s) in (r, {| outage := O; served := b |})
  end.

Definition host : Host :=
  let working := InMemory.host false false in
  {| Ext := state;
     host_getActiveSpreadsheet := flaky (@host_getActiveSpreadsheet working);
     host_getSheetByName := fun ss name => flaky (@host_getSheetByName working ss name);
     host_insertSheet := fun ss name => flaky (@host_insertSheet working ss name);
     host_getLastRow := fun sheet => flaky (@host_getLastRow working sheet);
     host_getRange := fun sheet row column numRows numColumns =>
       flaky (@host_getRange working sheet row column numRows numColumns);
     host_getDataRange := fun sheet => flaky (@host_getDataRange working sheet);
     host_getValues := fun range => flaky (@host_getValues working range);
     host_appendRow := fun sheet row => flaky (@host_appendRow working sheet row);
     host_fetch := fun url params => flaky (@host_fetch working url params);
     host_now := fun s => (InMemory.clock (served s), s) |}.

End Recovering.

(** ** Facts about the date arithmetic *)

Module ESDateFacts.
Import ESDate.

Ltac floor_lia := Z.div_mod_to_equations; lia.

Ltac split_tests :=
  repeat match goal with
    | |- context [ ?a <? ?b ] => destruct (Z.ltb_spec a b)
    | |- context [ ?a <=? ?b ] => destruct (Z.leb_spec a b)
    | |- context [ ?a =? ?b ] => destruct (Z.eqb_spec a b)
    end.

Ltac prune_tests :=
  repeat (match goal with
          | |- context [ ?a <? ?b ] => destruct (Z.ltb_spec a b)
          | |- context [ ?a <=? ?b ] => destruct (Z.leb_spec a b)
          | |- context [ ?a =? ?b ] => destruct (Z.eqb_spec a b)
          end; try (exfalso; lia)).

Ltac prune_on w :=
  repeat (match goal with
          | |- context [ w <? ?b ] => destruct (Z.ltb_spec w b)
          | |- context [ w + 1 <? ?b ] => destruct (Z.ltb_spec (w + 1) b)
          end; try (exfalso; lia)).

Lemma DaysInYear_cases y : DaysInYear y = 365 \/ DaysInYear y = 366.
Proof. unfold DaysInYear. split_tests; simpl; auto. Qed.

Lemma DayFromYear_step y : DayFromYear (y + 1) = DayFromYear y + DaysInYear y.
Proof. unfold DayFromYear, DaysInYear. split_tests; simpl negb; cbv iota; floor_lia. Qed.

Lemma DayFromYear_mono y1 y2 : y1 <= y2 -> DayFromYear y1 <= DayFromYear y2.
Proof. intros H. unfold DayFromYear. floor_lia. Qed.

Lemma YearFromDay_spec d :
  DayFromYear (YearFromDay d) <= d < DayFromYear (YearFromDay d + 1).
Proof.
  unfold YearFromDay.
  set (y := 1970 + 400 * d / 146097).
  assert (Hlo : DayFromYear (y - 1) <= d) by (subst y; unfold DayFromYear; floor_lia).
  assert (Hhi : d < DayFromYear (y + 2)) by (subst y; unfold DayFromYear; floor_lia).
  split_tests.
  - replace (y - 1 + 1) with y by lia. lia.
  - replace (y + 1 + 1) with (y + 2) by lia. lia.
  - lia.
Qed.

Lemma YearFromDay_unique d y :
  DayFromYear y <= d < DayFromYear (y + 1) -> YearFromDay d = y.
Proof.
  intros H. pose proof (YearFromDay_spec d) as S.
  destruct (Z.lt_trichotomy (YearFromDay d) y) as [L | [E | G]]; [| exact E |].
  - pose proof (DayFromYear_mono (YearFromDay d + 1) y). lia.
  - pose proof (DayFromYear_mono (y + 1) (YearFromDay d)). lia.
Qed.

(** [YearFromTime t] is the largest [y] with [TimeFromYear y <= t]. *)
Lemma YearFromTime_largest t :
  TimeFromYear (YearFromTime t) <= t
  /\ forall y, TimeFromYear y <= t -> y <= YearFromTime t.
Proof.
  unfold TimeFromYear, YearFromTime.
  pose proof (YearFromDay_spec (Day t)) as [Lo Hi].
  assert (D : msPerDay * Day t <= t < msPerDay * Day t + msPerDay)
    by (unfold Day, msPerDay; floor_lia).
  unfold msPerDay in *. split; [lia |].
  intros y Hy.
  destruct (Z.le_gt_cases y (YearFromDay (Day t))) as [L | G]; [exact L | exfalso].
  pose proof (DayFromYear_mono (YearFromDay (Day t) + 1) y ltac:(lia)). lia.
Qed.

Lemma DayWithinYear_range t :
  0 <= DayWithinYear t < DaysInYear (YearFromTime t).
Proof.
  unfold DayWithinYear, YearFromTime.
  pose proof (YearFromDay_spec (Day t)) as S.
  rewrite DayFromYear_step in S. lia.
Qed.

Lemma InLeapYear_days t : DaysInYear (YearFromTime t) = 365 + InLeapYear t.
Proof.
  unfold InLeapYear. destruct (DaysInYear_cases (YearFromTime t)) as [E | E]; rewrite E; reflexivity.
Qed.

Lemma MonthFromTime_range t : 0 <= MonthFromTime t <= 11.
Proof. unfold MonthFromTime. split_tests; lia. Qed.

Lemma DateFromTime_range t : 1 <= DateFromTime t <= 31.
Proof.
  pose proof (DayWithinYear_range t) as R. rewrite InLeapYear_days in R.
  assert (L : InLeapYear t = 0 \/ InLeapYear t = 1)
    by (unfold InLeapYear; destruct (_ =? _); auto).
  unfold DateFromTime, MonthFromTime, MonthStart.
  set (d := DayWithinYear t) in *. set (l := InLeapYear t) in *.
  clearbody d l. split_tests; lia.
Qed.

Lemma Day_decomposition t :
  Day t = DayFromYear (YearFromTime t)
          + MonthStart (MonthFromTime t) (InLeapYear t) + DateFromTime t - 1.
Proof. unfold DateFromTime, DayWithinYear. lia. Qed.

Lemma MakeDay_shift t n :
  MakeDay (YearFromTime t) (MonthFromTime t) (DateFromTime t + n) = Day t + n.
Proof.
  pose proof (MonthFromTime_range t) as R.
  unfold MakeDay.
  replace (MonthFromTime t / 12) with 0 by floor_lia.
  replace (MonthFromTime t mod 12) with (MonthFromTime t) by floor_lia.
  rewrite Z.add_0_r. fold (InLeapYear t).
  rewrite (Day_decomposition t). lia.
Qed.

Lemma MakeDate_shift t n :
  MakeDate (Day t + n) (TimeWithinDay t) = t + n * msPerDay.
Proof. unfold MakeDate, Day, TimeWithinDay, msPerDay. floor_lia. Qed.

Lemma Day_shift t n : Day (t + n * msPerDay) = Day t + n.
Proof. unfold Day, msPerDay. floor_lia. Qed.

Lemma is_leap_days y : DaysInYear y = if Spec.is_leap y then 366 else 365.
Proof.
  unfold DaysInYear, Spec.is_leap.
  assert (A : y mod 100 = 0 -> y mod 4 = 0).
  { intros E. rewrite <- (Z.mod_mod_divide y 100 4) by (exists 25; lia). now rewrite E. }
  assert (B : y mod 400 = 0 -> y mod 100 = 0).
  { intros E. rewrite <- (Z.mod_mod_divide y 400 100) by (exists 4; lia). now rewrite E. }
  split_tests; simpl; try reflexivity; exfalso; intuition congruence.
Qed.

Lemma YearFromTime_same t :
  DayWithinYear t + 1 < DaysInYear (YearFromTime t) ->
  YearFromTime (t + msPerDay) = YearFromTime t.
Proof.
  intros H. unfold DayWithinYear, YearFromTime in *.
  replace (t + msPerDay) with (t + 1 * msPerDay) by lia. rewrite Day_shift.
  apply YearFromDay_unique. rewrite DayFromYear_step.
  pose proof (YearFromDay_spec (Day t)). lia.
Qed.

Lemma YearFromTime_next t :
  DayWithinYear t + 1 = DaysInYear (YearFromTime t) ->
  YearFromTime (t + msPerDay) = YearFromTime t + 1.
Proof.
  intros H. unfold DayWithinYear, YearFromTime in *.
  replace (t + msPerDay) with (t + 1 * msPerDay) by lia. rewrite Day_shift.
  apply YearFromDay_unique. rewrite !DayFromYear_step.
  pose proof (YearFromDay_spec (Day t)).
  pose proof (DaysInYear_cases (YearFromDay (Day t) + 1)). lia.
Qed.

Lemma civil_next t : civil (t + msPerDay) = Spec.next_day (civil t).
Proof.
  pose proof (DayWithinYear_range t) as R.
  pose proof (is_leap_days (YearFromTime t)) as L.
  assert (D : Day (t + msPerDay) = Day t + 1)
    by (replace (t + msPerDay) with (t + 1 * msPerDay) by lia; apply Day_shift).
  destruct (Z.eq_dec (DayWithinYear t + 1) (DaysInYear (YearFromTime t))) as [E | N].
  - pose proof (YearFromTime_next t E) as Y.
    assert (W : DayWithinYear (t + msPerDay) = 0).
    { unfold DayWithinYear in *. rewrite D, Y. unfold YearFromTime. rewrite DayFromYear_step.
      fold (YearFromTime t). lia. }
    unfold civil, Spec.next_day, Spec.days_in_month, DateFromTime, MonthFromTime, MonthStart.
    rewrite W, Y. unfold InLeapYear. rewrite L in *.
    set (w := DayWithinYear t) in *. clearbody w.
    destruct (Spec.is_leap (YearFromTime t)); simpl Z.eqb; cbv iota.
    all: prune_on w; simpl; prune_tests; repeat f_equal; lia.
  - pose proof (YearFromTime_same t ltac:(lia)) as Y.
    assert (W : DayWithinYear (t + msPerDay) = DayWithinYear t + 1).
    { unfold DayWithinYear in *. rewrite D, Y. lia. }
    unfold civil, Spec.next_day, Spec.days_in_month, DateFromTime, MonthFromTime, MonthStart.
    rewrite W. unfold InLeapYear. rewrite Y, L in *.
    set (w := DayWithinYear t) in *. clearbody w.
    destruct (Spec.is_leap (YearFromTime t)); simpl Z.eqb; cbv iota.
    all: prune_on w; simpl; prune_tests; repeat f_equal; lia.
Qed.

End ESDateFacts.

(** ** formatDate and addDays *)

Section EngineFacts.
Context `{RT : Runtime}.
Import ESDate ESDateFacts.

Lemma pad_two_digits n :
  1 <= n <= 31 -> padStart (Z_toString n) 2 "0" = Spec.two_digits n.
Proof.
  intros R.
  assert (H : forallb (fun k => String.eqb (padStart (Z_toString (Z.of_nat k)) 2 "0")
                                  (Spec.two_digits (Z.of_nat k))) (seq 1 31) = true)
    by (vm_compute; reflexivity).
  rewrite forallb_forall in H. specialize (H (Z.to_nat n)).
  rewrite Z2Nat.id in H by lia. apply String.eqb_eq, H, in_seq. lia.
Qed.

Lemma four_digit_year y :
  1000 <= y <= 9999 -> Spec.digits 4 (Z_toString y) = true.
Proof.
  intros R.
  assert (H : forallb (fun k => Spec.digits 4 (Z_toString (Z.of_nat k)))
                (seq 1000 (90 * 100)) = true)
    by (vm_compute; reflexivity).
  rewrite forallb_forall in H. specialize (H (Z.to_nat y)).
  rewrite Z2Nat.id in H by lia. apply H, in_seq. lia.
Qed.

Lemma two_digits_digits n : 1 <= n <= 31 -> Spec.digits 2 (Spec.two_digits n) = true.
Proof.
  intros R.
  assert (H : forallb (fun k => Spec.digits 2 (Spec.two_digits (Z.of_nat k))) (seq 1 31) = true)
    by (vm_compute; reflexivity).
  rewrite forallb_forall in H. specialize (H (Z.to_nat n)).
  rewrite Z2Nat.id in H by lia. apply H, in_seq. lia.
Qed.

Lemma pattern_of_parts (y m d : string) :
  Spec.digits 4 y = true -> Spec.digits 2 m = true -> Spec.digits 2 d = true ->
  Spec.YYYY_MM_DD (y +:+ "/" +:+ m +:+ "/" +:+ d) = true.
Proof.
  intros Hy Hm Hd.
  destruct y as [| y1 [| y2 [| y3 [| y4 [| ? ?]]]]]; try discriminate;
    try (simpl in Hy; rewrite ?andb_false_r in Hy; discriminate).
  destruct m as [| m1 [| m2 [| ? ?]]]; try discriminate;
    try (simpl in Hm; rewrite ?andb_false_r in Hm; discriminate).
  destruct d as [| d1 [| d2 [| ? ?]]]; try discriminate;
    try (simpl in Hd; rewrite ?andb_false_r in Hd; discriminate).
  unfold Spec.YYYY_MM_DD.
  change (String y1 (String y2 (String y3 (String y4 EmptyString))) +:+ "/"
          +:+ String m1 (String m2 EmptyString) +:+ "/" +:+ String d1 (String d2 EmptyString))
    with (String y1 (String y2 (String y3 (String y4 (String "/" (String m1 (String m2
            (String "/" (String d1 (String d2 EmptyString)))))))))).
  cbn [substring String.length Nat.eqb].
  rewrite Hy, Hm, Hd. reflexivity.
Qed.

Lemma formatDate_string t :
  formatDate (VDate (Some t))
  = VStr (Z_toString (YearFromTime (LocalTime t)) +:+ "/"
          +:+ Spec.two_digits (MonthFromTime (LocalTime t) + 1) +:+ "/"
          +:+ Spec.two_digits (DateFromTime (LocalTime t))).
Proof.
  pose proof (MonthFromTime_range (LocalTime t)).
  pose proof (DateFromTime_range (LocalTime t)).
  unfold formatDate, getFullYear, getMonth, getDate, num_add, num_toString.
  now rewrite !pad_two_digits by lia.
Qed.

(** C6, amended.  For every calendar date (a [Date] with time value [t]),
    [formatDate] returns the year, a slash, the month and a slash, the day,
    where the month (1 to 12) and the day (1 to 31) are written with exactly
    two digits, a leading zero below ten, and the year is written as
    [String(year)] writes it, without padding.  For the years 1000 to 9999
    that is the pattern YYYY/MM/DD; the fifth of January 2024 gives
    2024/01/05. *)
Theorem formatDate_of_date (t : Z) :
  let lt := LocalTime t in
  let y := YearFromTime lt in
  let m := MonthFromTime lt + 1 in
  let d := DateFromTime lt in
  formatDate (VDate (Some t))
  = VStr (Z_toString y +:+ "/" +:+ Spec.two_digits m +:+ "/" +:+ Spec.two_digits d)
  /\ 1 <= m <= 12 /\ 1 <= d <= 31
  /\ (1000 <= y <= 9999 ->
      Spec.YYYY_MM_DD
        (Z_toString y +:+ "/" +:+ Spec.two_digits m +:+ "/" +:+ Spec.two_digits d) = true)
  /\ (Spec.calendar_date t = (2024, 0, 5) -> formatDate (VDate (Some t)) = VStr "2024/01/05").
Proof.
  intros lt y m d.
  pose proof (MonthFromTime_range lt) as Rm.
  pose proof (DateFromTime_range lt) as Rd.
  split; [apply formatDate_string |].
  split; [subst m; lia |].
  split; [subst d; lia |].
  split.
  - intros Ry. apply pattern_of_parts;
      [now apply four_digit_year | apply two_digits_digits; subst m; lia
      | now apply two_digits_digits].
  - unfold Spec.calendar_date, civil. fold lt. intros [= Ey Em Ed].
    rewrite formatDate_string. fold lt. now rewrite Ey, Em, Ed.
Qed.

(** C7.  For every input that is not a [Date], [formatDate] returns the
    input itself, unchanged. *)
Theorem formatDate_passes_non_dates (v : value) :
  (forall t, v <> VDate t) -> formatDate v = v.
Proof. intros H. destruct v; try reflexivity. now destruct (H t). Qed.

Lemma setDate_value_shift t n :
  setDate_value (Some t) (num_add (getDate (Some t)) n)
  = TimeClip (UTC (LocalTime t + n * msPerDay)).
Proof.
  unfold setDate_value, getDate, num_add.
  now rewrite MakeDay_shift, MakeDate_shift.
Qed.

Lemma addDays_unfold (h : store) (date : ref) (n : Z) :
  addDays h date n
  = (h ++ [setDate_value (thisTimeValue h date) (num_add (getDate (thisTimeValue h date)) n)],
     length h).
Proof.
  unfold addDays, new_Date, setDate.
  assert (E : thisTimeValue (h ++ [thisTimeValue h date]) (length h) = thisTimeValue h date).
  { unfold thisTimeValue at 1.
    now rewrite (list_lookup_middle h [] (thisTimeValue h date) (length h) eq_refl). }
  rewrite E. f_equal.
  replace (length h) with (length h + 0)%nat at 1 by lia.
  now rewrite insert_app_r.
Qed.

Lemma civil_iter x (k : nat) :
  civil (x + Z.of_nat k * msPerDay) = Nat.iter k Spec.next_day (civil x).
Proof.
  induction k as [| k IH].
  - simpl. f_equal. lia.
  - rewrite Nat.iter_succ, <- IH, <- civil_next. f_equal. lia.
Qed.

Lemma TimeClip_in_range u : Z.abs u <= maxTime -> TimeClip u = Some u.
Proof.
  intros H. unfold TimeClip. destruct (Z.ltb_spec maxTime (Z.abs u)); [lia | reflexivity].
Qed.

(** C8, amended.  For every valid date [d] with time value [t] and every
    integer [n >= 0] such that the result stays within the range of time
    values a [Date] can hold and the local day [n] days after that of [d] is
    a day of the time zone (no change of the zone's offset moves the result
    to another day), [addDays(d, n)] returns a new object whose local
    calendar date is [n] days after that of [d] (the calendar moved forward a
    day at a time, [n] times, over month and year ends: the 31st of January
    is followed by the 1st of February, the 31st of December by the 1st of
    January of the next year); [d] and every other object are left as they
    were. *)
Theorem addDays_within_range (h : store) (date : ref) (t n : Z) :
  h !! date = Some (Some t) ->
  0 <= n ->
  let x := LocalTime t + n * msPerDay in
  Z.abs (UTC x) <= maxTime ->
  civil (LocalTime (UTC x)) = civil x ->
  let r := addDays h date n in
  thisTimeValue r.1 r.2 = Some (UTC x)
  /\ Spec.calendar_date (UTC x)
     = Nat.iter (Z.to_nat n) Spec.next_day (Spec.calendar_date t)
  /\ h !! r.2 = None
  /\ (forall d, d <> r.2 -> r.1 !! d = h !! d)
  /\ thisTimeValue r.1 date = Some t
  /\ (forall y, n = 1 -> Spec.calendar_date t = (y, 0, 31) ->
                Spec.calendar_date (UTC x) = (y, 1, 1))
  /\ (forall y, n = 1 -> Spec.calendar_date t = (y, 11, 31) ->
                Spec.calendar_date (UTC x) = (y + 1, 0, 1)).
Proof.
  intros Hd Hn x Hr Hz r.
  assert (Hlt : (date < length h)%nat) by (eapply lookup_lt_Some; eauto).
  assert (Ht : thisTimeValue h date = Some t) by (unfold thisTimeValue; now rewrite Hd).
  assert (Er : r = (h ++ [Some (UTC x)], length h)).
  { subst r. rewrite addDays_unfold, Ht, setDate_value_shift. fold x.
    now rewrite (TimeClip_in_range _ Hr). }
  assert (Ec : Spec.calendar_date (UTC x)
               = Nat.iter (Z.to_nat n) Spec.next_day (Spec.calendar_date t)).
  { unfold Spec.calendar_date. rewrite Hz. subst x.
    rewrite <- civil_iter. now rewrite Z2Nat.id. }
  rewrite Er. cbn [fst snd].
  split.
  { unfold thisTimeValue.
    now rewrite (list_lookup_middle h [] (Some (UTC x)) (length h) eq_refl). }
  split; [exact Ec |].
  split; [apply lookup_ge_None; lia |].
  split.
  { intros d Hne. destruct (Nat.lt_ge_cases d (length h)).
    - now rewrite lookup_app_l.
    - rewrite !lookup_ge_None_2; [reflexivity | lia | rewrite length_app; simpl; lia]. }
  split.
  { unfold thisTimeValue. rewrite lookup_app_l by lia. now rewrite Hd. }
  split.
  - intros y -> E. rewrite Ec, E. reflexivity.
  - intros y -> E. rewrite Ec, E. reflexivity.
Qed.

End EngineFacts.

(** C6 as stated fails: the year of a date before the year 1000 is printed
    with fewer than four digits.  The 15th of June 999 gives 999/06/15. *)
Lemma formatDate_year_unpadded :
  ~ (forall t : Z,
       exists s, formatDate (RT := InMemory.runtime) (VDate (Some t)) = VStr s
                 /\ Spec.YYYY_MM_DD s = true).
Proof.
  intros H. destruct (H (-30627493200000)) as (s & E & P).
  vm_compute in E. injection E as <-. vm_compute in P. discriminate.
Qed.

(** C7: a text cell and a blank cell come back as they went in. *)
Lemma formatDate_passes_non_dates_witness :
  formatDate (RT := InMemory.runtime) (VStr "2024/01/05") = VStr "2024/01/05"
  /\ formatDate (RT := InMemory.runtime) InMemory.blank = InMemory.blank.
Proof.
  split; apply (formatDate_passes_non_dates (RT := InMemory.runtime)); discriminate.
Defined.

(** C8: the 31st of December 2023, noon in Tokyo, plus one day. *)
Lemma addDays_within_range_witness :
  let t := 1703991600000 in
  let r := addDays (RT := InMemory.runtime) [Some t] 0%nat 1 in
  thisTimeValue r.1 r.2 = Some (t + 1 * ESDate.msPerDay)
  /\ thisTimeValue r.1 0%nat = Some t
  /\ Spec.calendar_date (RT := InMemory.runtime) t = (2023, 11, 31)
  /\ Spec.calendar_date (RT := InMemory.runtime) (t + 1 * ESDate.msPerDay) = (2024, 0, 1).
Proof.
  intros t r.
  pose proof (addDays_within_range (RT := InMemory.runtime) [Some t] 0%nat t 1
                eq_refl ltac:(lia) ltac:(vm_compute; discriminate)
                ltac:(vm_compute; reflexivity)) as H.
  cbv zeta in H. fold r in H.
  destruct H as (H1 & _ & _ & _ & H5 & _ & H7).
  split; [exact H1 |].
  split; [exact H5 |].
  split; [reflexivity | apply (H7 2023); reflexivity].
Defined.

(** C8 as stated fails in two ways.  Two hundred million days after the
    epoch is past the last time value a [Date] can hold, and [addDays]
    returns the Invalid Date.  And where the time zone skips a day (Apia had
    no 30th of December 2011), one day after the 29th at noon is the 31st. *)
Lemma addDays_out_of_range :
  ~ (forall (h : store) (date : ref) (t n : Z),
       h !! date = Some (Some t) ->
       0 <= n ->
       let r := addDays (RT := InMemory.runtime) h date n in
       exists t', thisTimeValue r.1 r.2 = Some t'
                  /\ Spec.calendar_date (RT := InMemory.runtime) t'
                     = Nat.iter (Z.to_nat n) Spec.next_day
                         (Spec.calendar_date (RT := InMemory.runtime) t))
  /\ ~ (forall (h : store) (date : ref) (t n : Z),
          h !! date = Some (Some t) ->
          0 <= n ->
          let r := addDays (RT := InMemory.runtime_in_Apia) h date n in
          exists t', thisTimeValue r.1 r.2 = Some t'
                     /\ Spec.calendar_date (RT := InMemory.runtime_in_Apia) t'
                        = Nat.iter (Z.to_nat n) Spec.next_day
                            (Spec.calendar_date (RT := InMemory.runtime_in_Apia) t)).
Proof.
  split; intros H.
  - destruct (H [Some 0] 0%nat 0 200000000 eq_refl ltac:(lia)) as (t' & E & _).
    vm_compute in E. discriminate.
  - destruct (H [Some 1325196000000] 0%nat 1325196000000 1 eq_refl ltac:(lia))
      as (t' & E & C).
    vm_compute in E. injection E as <-. vm_compute in C. discriminate.
Qed.

(** ** Facts about runs *)

Section MonadFacts.
Context `{HO : Host}.

Lemma outcome_eq {A} (o o' : outcome A) :
  res o = res o' -> final o = final o' -> emitted o = emitted o' -> o = o'.
Proof. destruct o, o'; simpl; intros; subst; reflexivity. Qed.

Lemma bind_Ok {A B} (m : M A) (k : A -> M B) s a :
  res (m s) = Ok a -> bind m k s = and_then (m s) (k a).
Proof. intros E. unfold bind, and_then. now rewrite E. Qed.

Lemma try_catch_Ok {A} (m : M A) h s a :
  res (m s) = Ok a -> try_catch m h s = m s.
Proof. intros E. unfold try_catch. now rewrite E. Qed.

Lemma try_catch_Throw {A} (m : M A) h s e :
  res (m s) = Throw e -> try_catch m h s = and_then (m s) (h e).
Proof. intros E. unfold try_catch, and_then. now rewrite E. Qed.

(** A [try] around [m] followed by [k] is [m], then the [try] around [k]
    when [m] returns, the handler when it throws. *)
Lemma try_catch_bind {A B} (m : M A) (k : A -> M B) h s :
  try_catch (bind m k) h s
  = match res (m s) with
    | Ok a => and_then (m s) (try_catch (k a) h)
    | Throw e => and_then (m s) (h e)
    end.
Proof.
  unfold try_catch, bind, and_then.
  destruct (res (m s)) as [a | e]; simpl; [| reflexivity].
  destruct (res (k a (final (m s)))) as [b | e] eqn:E; simpl.
  - now rewrite E.
  - f_equal. now rewrite app_assoc.
Qed.

Lemma only_ret {A} P (a : A) : only P (ret a).
Proof. intros s. reflexivity. Qed.

Lemma only_throw {A} P e : only P (throw (A := A) e).
Proof. intros s. reflexivity. Qed.

Lemma only_lift {A} P (r : result A) : only P (lift r).
Proof. destruct r; [apply only_ret | apply only_throw]. Qed.

Lemma only_now P : only P now.
Proof. intros s. unfold now. destruct (host_now s). reflexivity. Qed.

Lemma only_call {A} P ev (f : Ext -> result A * Ext) : P ev = true -> only P (call ev f).
Proof. intros E s. unfold call. destruct (f s). simpl. now rewrite E. Qed.

Lemma only_bind {A B} P (m : M A) (k : A -> M B) :
  only P m -> (forall a, only P (k a)) -> only P (bind m k).
Proof.
  intros Hm Hk s. unfold bind. specialize (Hm s).
  destruct (res (m s)); simpl; [| exact Hm].
  rewrite forallb_app, Hm. apply Hk.
Qed.

Lemma only_try_catch {A} P (m : M A) h :
  only P m -> (forall e, only P (h e)) -> only P (try_catch m h).
Proof.
  intros Hm Hh s. unfold try_catch. specialize (Hm s).
  destruct (res (m s)); simpl; [exact Hm |].
  rewrite forallb_app, Hm. apply Hh.
Qed.

Lemma only_if {A} P (b : bool) (m m' : M A) :
  only P m -> only P m' -> only P (if b then m else m').
Proof. now destruct b. Qed.

Lemma fetches_app l l' : fetches (l ++ l') = (fetches l + fetches l')%nat.
Proof. unfold fetches. now rewrite List.filter_app, length_app. Qed.

Lemma appends_app l l' : appends (l ++ l') = (appends l + appends l')%nat.
Proof. unfold appends. now rewrite List.filter_app, length_app. Qed.

Lemma quiet_no_fetch l : forallb is_quiet l = true -> fetches l = 0%nat.
Proof.
  unfold fetches. induction l as [| ev l IH]; simpl; [reflexivity |].
  unfold is_quiet at 1. destruct (is_fetch ev); simpl; [discriminate |].
  intros H. apply andb_prop in H as [_ H]. auto.
Qed.

Lemma quiet_no_loans_call l : forallb is_quiet l = true -> forallb (fun ev => negb (is_loans_call ev)) l = true.
Proof.
  induction l as [| ev l IH]; simpl; [reflexivity |].
  intros H. apply andb_prop in H as [H1 H2]. unfold is_quiet in H1.
  apply andb_prop in H1 as [_ H1]. now rewrite H1, IH.
Qed.

End MonadFacts.

Section ScriptFacts.
Context `{RT : Runtime} `{HO : Host}.

Ltac only_calls :=
  repeat (first
    [ apply only_bind; [| intros ?]
    | apply only_try_catch; [| intros ?]
    | apply only_ret | apply only_throw | apply only_lift | apply only_now
    | apply only_call; reflexivity
    | apply only_if
    | match goal with |- only _ (match ?x with _ => _ end) => destruct x end ]).

Lemma logError_quiet msg : only is_quiet (logError msg).
Proof. unfold logError, getActiveSpreadsheet, getSheetByName, insertSheet, appendRow. only_calls. Qed.

Lemma getConfig_quiet : only is_quiet getConfig.
Proof.
  unfold getConfig, try_getConfig, getActiveSpreadsheet, getSheetByName, getLastRow, getRange, getValues.
  only_calls; apply logError_quiet.
Qed.

Lemma settings_missing_total config : exists b, settings_missing config = Ok b.
Proof.
  unfold settings_missing, not_field, or_else.
  destruct config as [v | fields]; simpl.
  - destruct v as [| | [] | n | str | t]; simpl; eauto.
    + destruct (number_truthy n); simpl; eauto.
    + destruct (String.eqb str EmptyString); simpl; eauto.
  - repeat match goal with
           | |- context [ fields !! ?k ] => destruct (fields !! k); simpl
           | |- context [ negb ?b ] => destruct b; simpl
           end; eauto.
Qed.

Lemma run_shape s :
  let o1 := getConfig s in
  match res o1 with
  | Throw e => checkReturnDatesAndNotify s = and_then o1 (catch_checkReturnDatesAndNotify e)
  | Ok config =>
      match settings_missing config with
      | Throw e => False
      | Ok true =>
          checkReturnDatesAndNotify s
          = and_then o1 (try_catch (logError CONFIG_ERROR) catch_checkReturnDatesAndNotify)
      | Ok false =>
          let o3 := and_then o1 (let* t := now in getBooksDueOnDate (tomorrow_of t)) in
          match res o3 with
          | Throw e => checkReturnDatesAndNotify s = and_then o3 (catch_checkReturnDatesAndNotify e)
          | Ok returnBooks =>
              if (0 <? length returnBooks)%nat then
                checkReturnDatesAndNotify s
                = and_then o3
                    (try_catch (sendMessageToLINE config (VStr (build_message returnBooks)))
                       catch_checkReturnDatesAndNotify)
              else
                checkReturnDatesAndNotify s
                = {| res := Ok tt; final := final o3; emitted := emitted o3 |}
          end
      end
  end.
Proof.
  intros o1. unfold checkReturnDatesAndNotify, try_checkReturnDatesAndNotify. rewrite try_catch_bind. fold o1.
  destruct (res o1) as [config | e]; [| reflexivity].
  destruct (settings_missing_total config) as [missing E]. rewrite E.
  unfold and_then at 1. rewrite try_catch_bind. simpl.
  destruct missing.
  - apply outcome_eq; reflexivity.
  - unfold and_then, try_catch, bind, now, ret. simpl.
    destruct (host_now (final o1)) as [t s2]. simpl.
    destruct (getBooksDueOnDate (tomorrow_of t) s2) as [[returnBooks | e] s3 evs]; simpl.
    + destruct (0 <? length returnBooks)%nat; simpl.
      * destruct (sendMessageToLINE config (VStr (build_message returnBooks)) s3)
          as [[[] | e] s4 evs']; simpl; f_equal; now rewrite ?app_assoc.
      * now rewrite app_nil_r.
    + f_equal. now rewrite app_assoc.
Qed.

(** *** The message *)

Lemma append_assoc (a b c : string) : (a +:+ b) +:+ c = a +:+ (b +:+ c).
Proof.
  induction a as [| ch a IH]; [reflexivity |].
  change (String ch ((a +:+ b) +:+ c) = String ch (a +:+ (b +:+ c))). now rewrite IH.
Qed.

Lemma concat_cons sep x (l : list string) :
  l <> [] -> String.concat sep (x :: l) = x +:+ sep +:+ String.concat sep l.
Proof. destruct l; [congruence | reflexivity]. Qed.

Lemma concat_app sep (l l' : list string) :
  l <> [] -> l' <> [] ->
  String.concat sep (l ++ l') = String.concat sep l +:+ sep +:+ String.concat sep l'.
Proof.
  intros Hl Hl'. induction l as [| x l IH]; [congruence |].
  destruct l as [| y l].
  - simpl app. now rewrite concat_cons.
  - change ((x :: y :: l) ++ l') with (x :: ((y :: l) ++ l')).
    rewrite concat_cons by discriminate. rewrite IH by discriminate.
    rewrite (concat_cons sep x (y :: l)) by discriminate.
    now rewrite !append_assoc.
Qed.

Lemma build_message_lines (returnBooks : list value) :
  returnBooks <> [] ->
  build_message returnBooks
  = String.concat nl ([MESSAGE_HEADER] ++ map join_item returnBooks ++ [EmptyString; MESSAGE_URL]).
Proof.
  intros H. unfold build_message, join.
  assert (N : map join_item returnBooks <> []) by (destruct returnBooks; [congruence | discriminate]).
  change ([MESSAGE_HEADER] ++ map join_item returnBooks ++ [EmptyString; MESSAGE_URL])
    with (MESSAGE_HEADER :: (map join_item returnBooks ++ [EmptyString; MESSAGE_URL])).
  rewrite concat_cons by (destruct (map join_item returnBooks); discriminate).
  rewrite concat_app by (assumption || discriminate).
  reflexivity.
Qed.

Lemma join_item_strings (titles : list string) : map join_item (map VStr titles) = titles.
Proof. induction titles as [| x l IH]; simpl; [reflexivity | now rewrite IH]. Qed.

Lemma build_message_truthy (returnBooks : list value) :
  ToBoolean (VStr (build_message returnBooks)) = true.
Proof. reflexivity. Qed.

(** *** No request outside sendMessageToLINE *)

Lemma only_weaken {A} (P Q : event -> bool) (m : M A) :
  (forall ev, P ev = true -> Q ev = true) -> only P m -> only Q m.
Proof.
  intros HPQ Hm s. specialize (Hm s).
  induction (emitted (m s)) as [| ev l IH]; simpl in *; [reflexivity |].
  apply andb_prop in Hm as [H1 H2]. now rewrite (HPQ _ H1), IH.
Qed.

Lemma not_fetch_count l : forallb not_fetch l = true -> fetches l = 0%nat.
Proof.
  unfold fetches, not_fetch. induction l as [| ev l IH]; simpl; [reflexivity |].
  destruct (is_fetch ev); simpl; [discriminate | exact IH].
Qed.

Lemma logError_no_fetch msg : only not_fetch (logError msg).
Proof.
  apply (only_weaken is_quiet); [| apply logError_quiet].
  intros ev. unfold is_quiet, not_fetch. now destruct (is_fetch ev).
Qed.

Lemma getBooksDueOnDate_no_fetch target : only not_fetch (getBooksDueOnDate target).
Proof.
  unfold getBooksDueOnDate, try_getBooksDueOnDate, getActiveSpreadsheet, getSheetByName, getDataRange, getValues.
  only_calls; apply logError_no_fetch.
Qed.

Lemma catch_quiet e : only is_quiet (catch_checkReturnDatesAndNotify e).
Proof. apply logError_quiet. Qed.

(** *** sendMessageToLINE *)

Lemma get_field_truthy config key :
  truthy config = true -> exists v, get_field config key = Ok v.
Proof.
  destruct config as [[] | fields]; simpl; try discriminate; eauto.
  destruct (fields !! key_of key); eauto.
Qed.

Lemma settings_missing_truthy config : settings_missing config = Ok false -> truthy config = true.
Proof. unfold settings_missing. destruct (truthy config); simpl; [reflexivity | discriminate]. Qed.

Lemma send_skipped config message s :
  truthy config && ToBoolean message = false ->
  sendMessageToLINE config message s
  = try_catch (logError SEND_ARGUMENT_ERROR) catch_sendMessageToLINE s.
Proof.
  intros E. unfold sendMessageToLINE, try_sendMessageToLINE.
  replace (negb (truthy config) || negb (ToBoolean message)) with true; [reflexivity |].
  destruct (truthy config), (ToBoolean message); simpl in *; congruence.
Qed.

Lemma send_attempted config message s :
  truthy config && ToBoolean message = true ->
  exists url accessToken toUserId,
    get_field config URL = Ok url
    /\ get_field config ACCESS_TOKEN = Ok accessToken
    /\ get_field config TO_USER_ID = Ok toUserId
    /\ sendMessageToLINE config message s
       = try_catch (fetch url (fetch_options accessToken toUserId message))
           catch_sendMessageToLINE s.
Proof.
  intros E. apply andb_prop in E as [Ec Em].
  destruct (get_field_truthy config URL Ec) as [url Eu].
  destruct (get_field_truthy config ACCESS_TOKEN Ec) as [tok Et].
  destruct (get_field_truthy config TO_USER_ID Ec) as [to Eo].
  exists url, tok, to. repeat (split; [assumption |]).
  unfold sendMessageToLINE, try_sendMessageToLINE. rewrite Ec, Em, Eu, Et, Eo. simpl negb. simpl orb. cbv iota.
  unfold try_catch, bind, lift, ret, fetch, call, catch_sendMessageToLINE. simpl.
  destruct (host_fetch url (fetch_options tok to message) s) as [[[] | e] s']; reflexivity.
Qed.

Lemma try_fetch_events url params s :
  let o := try_catch (fetch url params) catch_sendMessageToLINE s in
  hd_error (emitted o) = Some (CallFetch url params) /\ fetches (emitted o) = 1%nat.
Proof.
  unfold try_catch, fetch, call. destruct (host_fetch url params s) as [[[] | e] s']; simpl.
  - split; reflexivity.
  - split; [reflexivity |]. unfold catch_sendMessageToLINE.
    change (CallFetch url params :: ?l) with ([CallFetch url params] ++ l).
    rewrite (fetches_app [CallFetch url params]), (not_fetch_count _ (logError_no_fetch _ s')).
    reflexivity.
Qed.

Lemma try_log_no_fetch msg h s :
  (forall e, only not_fetch (h e)) ->
  fetches (emitted (try_catch (logError msg) h s)) = 0%nat.
Proof.
  intros H. apply not_fetch_count. apply only_try_catch; [apply logError_no_fetch | exact H].
Qed.

(** C9.  [sendMessageToLINE] makes its request exactly when [config] and
    [message] are both truthy; it does not look at the keys of [config]: the
    request goes to whatever [config.URL] is, with whatever
    [config.ACCESS_TOKEN] and [config.TO_USER_ID] are ([undefined] when the
    key is missing, so the header reads [Bearer undefined]).  When [config]
    or [message] is falsy no request is made and the argument error is
    handed to the error logger. *)
Theorem sendMessageToLINE_attempts (config : jsval) (message : value) (s : Ext) :
  let o := sendMessageToLINE config message s in
  fetches (emitted o) = (if truthy config && ToBoolean message then 1 else 0)%nat
  /\ (truthy config && ToBoolean message = true ->
      exists url accessToken toUserId,
        get_field config URL = Ok url
        /\ get_field config ACCESS_TOKEN = Ok accessToken
        /\ get_field config TO_USER_ID = Ok toUserId
        /\ hd_error (emitted o)
           = Some (CallFetch url (fetch_options accessToken toUserId message)))
  /\ (truthy config && ToBoolean message = false ->
      o = try_catch (logError SEND_ARGUMENT_ERROR) catch_sendMessageToLINE s)
  /\ (ToBoolean message = true ->
      hd_error (emitted (sendMessageToLINE (Obj ∅) message s))
      = Some (CallFetch VUndefined
                {| method := "post";
                   headers :=
                     [("Content-Type", "application/json; charset=UTF-8");
                      ("Authorization", "Bearer undefined")];
                   payload :=
                     JSON_stringify
                       {| to := VUndefined;
                          messages := [{| type := VStr "text"; text := message |}] |} |})).
Proof.
  intros o. subst o. split; [| split; [| split]].
  - destruct (truthy config && ToBoolean message) eqn:E.
    + destruct (send_attempted config message s E) as (url & tok & to & _ & _ & _ & ->).
      apply try_fetch_events.
    + rewrite send_skipped by assumption.
      apply try_log_no_fetch. intros e. apply logError_no_fetch.
  - intros E.
    destruct (send_attempted config message s E) as (url & tok & to & Eu & Et & Eo & ->).
    exists url, tok, to. repeat (split; [assumption |]). apply try_fetch_events.
  - intros E. now apply send_skipped.
  - intros Em.
    destruct (send_attempted (Obj ∅) message s) as (url & tok & to & Eu & Et & Eo & ->).
    { simpl. exact Em. }
    simpl in Eu, Et, Eo. rewrite !lookup_empty in *.
    injection Eu as <-. injection Et as <-. injection Eo as <-.
    apply try_fetch_events.
Qed.

(** *** logError *)

Ltac ask_host :=
  match goal with
  | |- context [ host_getActiveSpreadsheet ?s ] =>
      destruct (host_getActiveSpreadsheet s) as [[? | ?] ?] eqn:?
  | |- context [ host_getSheetByName ?a ?b ?s ] =>
      destruct (host_getSheetByName a b s) as [[[? |] | ?] ?] eqn:?
  | |- context [ host_insertSheet ?a ?b ?s ] =>
      destruct (host_insertSheet a b s) as [[? | ?] ?] eqn:?
  | |- context [ host_getLastRow ?a ?s ] =>
      destruct (host_getLastRow a s) as [[? | ?] ?] eqn:?
  | |- context [ host_getRange ?a ?b ?c ?d ?e ?s ] =>
      destruct (host_getRange a b c d e s) as [[? | ?] ?] eqn:?
  | |- context [ host_getDataRange ?a ?s ] =>
      destruct (host_getDataRange a s) as [[? | ?] ?] eqn:?
  | |- context [ host_getValues ?a ?s ] =>
      destruct (host_getValues a s) as [[? | ?] ?] eqn:?
  | |- context [ host_appendRow ?a ?b ?s ] =>
      destruct (host_appendRow a b s) as [[[] | ?] ?] eqn:?
  | |- context [ host_now ?s ] =>
      destruct (host_now s) as [? ?] eqn:?
  end; simpl.

Ltac run_host :=
  unfold try_catch, bind, ret, now, getActiveSpreadsheet, getSheetByName, insertSheet,
    getLastRow, getRange, getDataRange, getValues, appendRow, call; simpl;
  repeat ask_host.

Lemma logError_Ok msg s :
  res (logError msg s) = Ok tt ->
  exists evs sheet stamp,
    emitted (logError msg s) = evs ++ [CallAppendRow sheet [VStr stamp; VStr msg]]
    /\ appends evs = 0%nat.
Proof.
  unfold logError. run_host; intros E; try discriminate.
  - eexists [_; _], _, _. split; reflexivity.
  - eexists [_; _; _; _], _, _. split; reflexivity.
Qed.

Lemma logError_appends_once msg s :
  res (logError msg s) = Ok tt -> appends (emitted (logError msg s)) = 1%nat.
Proof.
  intros E. destruct (logError_Ok msg s E) as (evs & sheet & stamp & -> & Ha).
  rewrite appends_app, Ha. reflexivity.
Qed.

(** *** getBooksDueOnDate *)

Lemma is_due_due_on target row : is_due (VStr target) row = Spec.due_on target row.
Proof.
  unfold is_due, Spec.due_on. destruct (formatDate (cell row 6)) as [| | [] | | |]; reflexivity.
Qed.

Lemma dueBooks_titles_due target data :
  dueBooks (VStr target) data = Spec.titles_due target (drop 1 data).
Proof.
  unfold dueBooks. induction (drop 1 data) as [| row rows IH]; simpl; [reflexivity |].
  rewrite is_due_due_on. destruct (Spec.due_on target row); simpl; now rewrite IH.
Qed.

Lemma titles_due_app target rows rows' :
  Spec.titles_due target (rows ++ rows')
  = Spec.titles_due target rows ++ Spec.titles_due target rows'.
Proof.
  induction rows as [| row rows IH]; simpl; [reflexivity |].
  destruct (Spec.due_on target row); simpl; now rewrite IH.
Qed.

(** C1.  When the loan sheet is there and is read, [getBooksDueOnDate] leaves
    out the first row of the table and returns the titles (column 4) of the
    other rows whose due-date cell (column 7), formatted by [formatDate], is
    the target string: row by row, in the order of the table, every matching
    row giving its title (so a title is repeated as often as it matches). *)
Theorem getBooksDueOnDate_titles (target : string) (s s1 s2 s3 s4 : Ext)
    (ss sheet range : handle) (data : list (list value)) :
  host_getActiveSpreadsheet s = (Ok ss, s1) ->
  host_getSheetByName ss DATA_SHEET_NAME s1 = (Ok (Some sheet), s2) ->
  host_getDataRange sheet s2 = (Ok range, s3) ->
  host_getValues range s3 = (Ok data, s4) ->
  getBooksDueOnDate (VStr target) s
  = {| res := Ok (Spec.titles_due target (drop 1 data));
       final := s4;
       emitted := [CallGetActiveSpreadsheet; CallGetSheetByName ss DATA_SHEET_NAME;
                   CallGetDataRange sheet; CallGetValues range] |}
  /\ (forall rows rows',
        Spec.titles_due target (rows ++ rows')
        = Spec.titles_due target rows ++ Spec.titles_due target rows')
  /\ (forall row,
        Spec.titles_due target [row]
        = if Spec.due_on target row then [cell row 3] else []).
Proof.
  intros E1 E2 E3 E4. split; [| split].
  - unfold getBooksDueOnDate, try_getBooksDueOnDate, try_catch, bind, ret, getActiveSpreadsheet, getSheetByName,
      getDataRange, getValues, call.
    rewrite E1. simpl. rewrite E2. simpl. rewrite E3. simpl. rewrite E4. simpl.
    now rewrite dueBooks_titles_due.
  - apply titles_due_app.
  - intros row. simpl. now destruct (Spec.due_on target row).
Qed.

(** C2, amended.  For a row whose due-date cell is not a [Date], the
    comparison does not throw: [formatDate] returns the cell itself, and the
    row matches exactly when the cell is a string identical to the target.
    Its title is in the result exactly then; every other non-date cell (a
    number, a boolean, another string, a blank) leaves the title out. *)
Theorem non_date_due_cell (target : string) (header row : list value)
    (before after : list (list value)) :
  (forall t, cell row 6 <> VDate t) ->
  formatDate (cell row 6) = cell row 6
  /\ (is_due (VStr target) row = true <-> cell row 6 = VStr target)
  /\ dueBooks (VStr target) (header :: before ++ row :: after)
     = dueBooks (VStr target) (header :: before)
       ++ (if is_due (VStr target) row then [cell row 3] else [])
       ++ dueBooks (VStr target) (header :: after).
Proof.
  intros H.
  assert (F : formatDate (cell row 6) = cell row 6).
  { destruct (cell row 6); try reflexivity. now destruct (H t). }
  split; [exact F | split].
  - unfold is_due. rewrite F.
    destruct (cell row 6) as [| | b | n | str | t]; simpl; try (split; [discriminate | discriminate]).
    rewrite String.eqb_eq. split; [now intros -> | now intros [= ->]].
  - rewrite !dueBooks_titles_due.
    change (drop 1 (header :: before ++ row :: after)) with (before ++ row :: after).
    change (drop 1 (header :: before)) with before.
    change (drop 1 (header :: after)) with after.
    rewrite titles_due_app, is_due_due_on. simpl.
    now destruct (Spec.due_on target row).
Qed.

(** *** checkReturnDatesAndNotify *)

Lemma unusable_missing config :
  Spec.configuration_unusable config -> settings_missing config = Ok true.
Proof.
  unfold Spec.configuration_unusable, Spec.setting_absent_or_empty, settings_missing,
    not_field, or_else.
  intros [-> | H]; [reflexivity |].
  destruct config as [v | fields]; simpl.
  - destruct v as [| | [] | n | str | t]; simpl; try reflexivity.
    + now destruct (number_truthy n).
    + now destruct (String.eqb str EmptyString).
  - destruct H as [[-> | ->] | [[-> | ->] | [-> | ->]]]; simpl;
      repeat match goal with
             | |- context [ fields !! ?k ] => destruct (fields !! k); simpl
             | |- context [ negb ?b ] => destruct b; simpl
             end; reflexivity.
Qed.

Lemma quiet_and_then {A B} (o : outcome A) (k : M B) :
  forallb is_quiet (emitted o) = true -> only is_quiet k ->
  forallb is_quiet (emitted (and_then o k)) = true.
Proof. intros Ho Hk. simpl. rewrite forallb_app, Ho. apply Hk. Qed.

(** C3.  When [getConfig] returns [null], or a configuration in which one of
    [URL], [ACCESS_TOKEN], [TO_USER_ID] is absent or empty, the run goes on
    with the error logger on the configuration message and nothing else: it
    makes no request and no call of the filtering step; when the logger
    returns, the last call of the run appends the configuration message to
    the error log. *)
Theorem missing_settings_stop (s : Ext) (config : jsval) :
  res (getConfig s) = Ok config ->
  Spec.configuration_unusable config ->
  let run := checkReturnDatesAndNotify s in
  run = and_then (getConfig s)
          (try_catch (logError CONFIG_ERROR) catch_checkReturnDatesAndNotify)
  /\ fetches (emitted run) = 0%nat
  /\ forallb (fun ev => negb (is_loans_call ev)) (emitted run) = true
  /\ (res (logError CONFIG_ERROR (final (getConfig s))) = Ok tt ->
      res run = Ok tt
      /\ exists sheet stamp,
           last (emitted run) = Some (CallAppendRow sheet [VStr stamp; VStr CONFIG_ERROR])).
Proof.
  intros E U run.
  assert (R : run = and_then (getConfig s)
                      (try_catch (logError CONFIG_ERROR) catch_checkReturnDatesAndNotify)).
  { pose proof (run_shape s) as H. cbv zeta in H. rewrite E, (unusable_missing _ U) in H.
    exact H. }
  assert (Q : forallb is_quiet (emitted run) = true).
  { rewrite R. apply quiet_and_then; [apply getConfig_quiet |].
    apply only_try_catch; [apply logError_quiet | apply catch_quiet]. }
  split; [exact R | split; [| split]].
  - now apply quiet_no_fetch.
  - now apply quiet_no_loans_call.
  - intros L. rewrite R. unfold and_then.
    rewrite (try_catch_Ok _ _ _ tt L). simpl. split; [exact L |].
    destruct (logError_Ok _ _ L) as (evs & sheet & stamp & -> & _).
    exists sheet, stamp. rewrite app_assoc. apply last_snoc.
Qed.

Lemma before_send_no_fetch s :
  fetches (emitted (and_then (getConfig s)
                      (let* t := now in getBooksDueOnDate (tomorrow_of t)))) = 0%nat.
Proof.
  simpl. rewrite fetches_app.
  rewrite (quiet_no_fetch _ (getConfig_quiet s)).
  apply not_fetch_count.
  apply only_bind; [apply only_now | intros t; apply getBooksDueOnDate_no_fetch].
Qed.

Lemma try_send_one_fetch config returnBooks s :
  truthy config = true ->
  let o := try_catch (sendMessageToLINE config (VStr (build_message returnBooks)))
             catch_checkReturnDatesAndNotify s in
  fetches (emitted o) = 1%nat
  /\ exists url accessToken toUserId,
       get_field config URL = Ok url
       /\ get_field config ACCESS_TOKEN = Ok accessToken
       /\ get_field config TO_USER_ID = Ok toUserId
       /\ hd_error (emitted o)
          = Some (CallFetch url
                    (fetch_options accessToken toUserId (VStr (build_message returnBooks)))).
Proof.
  intros Ec o.
  assert (E : truthy config && ToBoolean (VStr (build_message returnBooks)) = true)
    by (rewrite Ec; apply build_message_truthy).
  destruct (send_attempted config (VStr (build_message returnBooks)) s E)
    as (url & tok & to & Eu & Et & Eo & Es).
  destruct (try_fetch_events url (fetch_options tok to (VStr (build_message returnBooks))) s)
    as [Hd F].
  rewrite <- Es in Hd, F.
  subst o. unfold try_catch.
  destruct (res (sendMessageToLINE config (VStr (build_message returnBooks)) s)) as [[] | e].
  - split; [exact F | eauto 10].
  - simpl. split.
    + rewrite fetches_app, F.
      now rewrite (quiet_no_fetch _ (catch_quiet e _)).
    + exists url, tok, to. repeat (split; [assumption |]).
      destruct (emitted (sendMessageToLINE config (VStr (build_message returnBooks)) s));
        [discriminate | exact Hd].
Qed.

Lemma positive_length {A} (l : list A) : (0 <? length l)%nat = true <-> l <> [].
Proof.
  destruct l; simpl; split; intros H; try reflexivity; try discriminate.
  now destruct H.
Qed.

(** C4.  In a run that has a complete configuration and whose filtering step
    returned [returnBooks]: when the list is empty the run stops there, no
    message is built and no request is made; when it is not, the message is
    the header line, then every title on a line of its own in the order of
    the list, then an empty line, then the line of the URL, and that message
    is what [sendMessageToLINE] is called with and what the one request of
    the run carries. *)
Theorem notification_message (s : Ext) (config : jsval) (returnBooks : list value)
    (o : outcome (list value)) :
  due_list s config returnBooks o ->
  let run := checkReturnDatesAndNotify s in
  (returnBooks = [] ->
     run = {| res := Ok tt; final := final o; emitted := emitted o |}
     /\ fetches (emitted run) = 0%nat)
  /\ (returnBooks <> [] ->
      build_message returnBooks
      = String.concat nl
          ([MESSAGE_HEADER] ++ map join_item returnBooks ++ [EmptyString; MESSAGE_URL])
      /\ (forall titles, returnBooks = map VStr titles ->
            build_message returnBooks = String.concat nl (Spec.message_lines titles))
      /\ run = and_then o
                 (try_catch (sendMessageToLINE config (VStr (build_message returnBooks)))
                    catch_checkReturnDatesAndNotify)
      /\ fetches (emitted run) = 1%nat
      /\ exists url accessToken toUserId,
           get_field config URL = Ok url
           /\ get_field config ACCESS_TOKEN = Ok accessToken
           /\ get_field config TO_USER_ID = Ok toUserId
           /\ emitted run !! length (emitted o)
              = Some (CallFetch url
                        (fetch_options accessToken toUserId
                           (VStr (build_message returnBooks))))).
Proof.
  intros (E1 & E2 & Eo & E3) run.
  pose proof (run_shape s) as H. cbv zeta in H. rewrite E1, E2, <- Eo, E3 in H.
  pose proof (before_send_no_fetch s) as F0. rewrite <- Eo in F0.
  fold run in H. clearbody run. clear Eo.
  split.
  - intros ->. simpl in H. split; [exact H |].
    rewrite H. exact F0.
  - intros N. rewrite (proj2 (positive_length returnBooks) N) in H.
    split; [now apply build_message_lines |].
    split.
    { intros titles ->. rewrite build_message_lines by assumption.
      now rewrite join_item_strings. }
    split; [exact H |].
    destruct (try_send_one_fetch config returnBooks (final o) (settings_missing_truthy _ E2))
      as (F1 & url & tok & to & Eu & Et & Eo & Hd).
    rewrite H. cbn [and_then emitted].
    split.
    + rewrite fetches_app, F0, F1. reflexivity.
    + exists url, tok, to. repeat (split; [assumption |]).
      rewrite lookup_app_r by lia. rewrite Nat.sub_diag.
      match goal with |- ?l !! 0%nat = _ => destruct l; [discriminate | exact Hd] end.
Qed.

(** C10.  A run makes at most one request; it makes exactly one when, and
    only when, the configuration is complete and the filtering step returned
    a list that is not empty (the send is then never skipped: the message
    always has its header). *)
Theorem at_most_one_request (s : Ext) :
  let run := checkReturnDatesAndNotify s in
  (fetches (emitted run) <= 1)%nat
  /\ (fetches (emitted run) = 1%nat
      <-> exists config returnBooks o, due_list s config returnBooks o /\ returnBooks <> []).
Proof.
  intros run. pose proof (run_shape s) as H. cbv zeta in H. fold run in H.
  pose proof (before_send_no_fetch s) as F0.
  remember (and_then (getConfig s) (let* t := now in getBooksDueOnDate (tomorrow_of t)))
    as o eqn:Eo.
  clearbody run.
  assert (Q1 := getConfig_quiet s).
  destruct (res (getConfig s)) as [config | e] eqn:E1.
  - destruct (settings_missing config) as [[|] | e] eqn:E2; [| | contradiction].
    + assert (F : fetches (emitted run) = 0%nat).
      { rewrite H. apply quiet_no_fetch, quiet_and_then; [exact Q1 |].
        apply only_try_catch; [apply logError_quiet | apply catch_quiet]. }
      rewrite F. split; [lia |]. split; [discriminate |].
      intros (c & l & o' & (Ec & Em & _) & _). congruence.
    + destruct (res o) as [returnBooks | e] eqn:E3.
      * destruct returnBooks as [| b l].
        -- simpl in H. rewrite H. cbn [emitted]. rewrite F0. split; [lia |].
           split; [discriminate |].
           intros (c & l & o' & (Ec & Em & Eo' & Er) & N). congruence.
        -- simpl in H.
           destruct (try_send_one_fetch config (b :: l) (final o)
                       (settings_missing_truthy _ E2)) as (F1 & _).
           assert (F : fetches (emitted run) = 1%nat).
           { rewrite H. cbn [and_then emitted]. rewrite fetches_app, F0, F1. reflexivity. }
           rewrite F. split; [lia |]. split; [| reflexivity].
           intros _. exists config, (b :: l), o. split; [| discriminate].
           repeat split; assumption.
      * assert (F : fetches (emitted run) = 0%nat).
        { rewrite H. cbn [and_then emitted]. rewrite fetches_app, F0.
          now rewrite (quiet_no_fetch _ (catch_quiet e _)). }
        rewrite F. split; [lia |]. split; [discriminate |].
        intros (c & l & o' & (Ec & Em & Eo' & Er) & N). congruence.
  - assert (F : fetches (emitted run) = 0%nat).
    { rewrite H. apply quiet_no_fetch, quiet_and_then; [exact Q1 | apply catch_quiet]. }
    rewrite F. split; [lia |]. split; [discriminate |].
    intros (c & l & o' & (Ec & _) & _). congruence.
Qed.

(** *** When the logger works *)

Lemma try_catch_bind_call {A B} ev (f : Ext -> result A * Ext) (k : A -> M B) h s :
  try_catch (bind (call ev f) k) h s
  = match f s with
    | (Ok a, s') => after [ev] (try_catch (k a) h s')
    | (Throw e, s') => after [ev] (h e s')
    end.
Proof.
  rewrite try_catch_bind. unfold call, and_then, after.
  destruct (f s) as [[a | e] s']; reflexivity.
Qed.

Lemma try_catch_call {A} ev (f : Ext -> result A * Ext) h s :
  try_catch (call ev f) h s
  = match f s with
    | (Ok a, s') => {| res := Ok a; final := s'; emitted := [ev] |}
    | (Throw e, s') => after [ev] (h e s')
    end.
Proof. unfold try_catch, call, after. destruct (f s) as [[a | e] s']; reflexivity. Qed.

Lemma appends_after {A} evs (o : outcome A) :
  appends (emitted (after evs o)) = (appends evs + appends (emitted o))%nat.
Proof. apply appends_app. Qed.

Section LoggerWorks.
Hypothesis logger_works : forall msg s, res (logError msg s) = Ok tt.

Lemma log_then_return {A} msg (a : A) s :
  let o := bind (logError msg) (fun _ => ret a) s in
  res o = Ok a /\ appends (emitted o) = 1%nat.
Proof.
  intros o. subst o. rewrite (bind_Ok _ _ _ tt (logger_works msg s)).
  unfold and_then, ret. cbn [res emitted]. split; [reflexivity |].
  rewrite app_nil_r. apply logError_appends_once, logger_works.
Qed.

Lemma try_log_then_return {A} msg (a : A) h s :
  let o := try_catch (bind (logError msg) (fun _ => ret a)) h s in
  res o = Ok a /\ appends (emitted o) = 1%nat.
Proof.
  intros o. subst o. destruct (log_then_return msg a s) as [R N].
  now rewrite (try_catch_Ok _ _ _ a R).
Qed.

Lemma after_quiet {A} evs (o : outcome A) r n :
  appends evs = 0%nat ->
  res o = r /\ appends (emitted o) = n ->
  res (after evs o) = r /\ appends (emitted (after evs o)) = n.
Proof. intros E [R N]. rewrite appends_after, E. now split. Qed.

Ltac next_call :=
  first [rewrite try_catch_bind_call | rewrite try_catch_call];
  match goal with
  | |- context [ match ?f ?s with _ => _ end ] => destruct (f s) as [[? | ?] ?]
  end.

Ltac fell_back :=
  repeat (apply after_quiet; [reflexivity |]);
  first [apply try_log_then_return | apply log_then_return].

Lemma getConfig_fallback s :
  let o := getConfig s in
  (exists fields, res o = Ok (Obj fields) /\ appends (emitted o) = 0%nat)
  \/ (res o = Ok (Prim VNull) /\ appends (emitted o) = 1%nat).
Proof.
  unfold getConfig, try_getConfig, catch_getConfig, getActiveSpreadsheet, getSheetByName, getLastRow,
    getRange, getValues.
  cbv zeta.
  next_call; [| right; fell_back].
  next_call; [| right; fell_back].
  destruct a0 as [sheet |]; [| right; fell_back].
  do 3 (next_call; [| right; fell_back]).
  left. eexists. repeat (apply after_quiet; [reflexivity |]). split; reflexivity.
Qed.

Lemma getBooksDueOnDate_fallback target s :
  let o := getBooksDueOnDate target s in
  exists returnBooks,
    res o = Ok returnBooks
    /\ (appends (emitted o) = 0%nat \/ (returnBooks = [] /\ appends (emitted o) = 1%nat)).
Proof.
  assert (G : let o := getBooksDueOnDate target s in
              (exists l, res o = Ok l /\ appends (emitted o) = 0%nat)
              \/ (res o = Ok [] /\ appends (emitted o) = 1%nat)).
  { unfold getBooksDueOnDate, try_getBooksDueOnDate, catch_getBooksDueOnDate, getActiveSpreadsheet, getSheetByName,
      getDataRange, getValues.
    cbv zeta.
    next_call; [| right; fell_back].
    next_call; [| right; fell_back].
    destruct a0 as [sheet |]; [| right; fell_back].
    do 2 (next_call; [| right; fell_back]).
    left. eexists. repeat (apply after_quiet; [reflexivity |]). split; reflexivity. }
  cbv zeta in *. destruct G as [(l & R & N) | (R & N)]; eauto 6.
Qed.

Lemma sendMessageToLINE_fallback config message s :
  let o := sendMessageToLINE config message s in
  res o = Ok tt
  /\ (appends (emitted o) <= 1)%nat
  /\ (fetches (emitted o) = 0%nat -> appends (emitted o) = 1%nat).
Proof.
  cbv zeta. destruct (truthy config && ToBoolean message) eqn:E.
  - destruct (send_attempted config message s E) as (url & tok & to & _ & _ & _ & ->).
    unfold catch_sendMessageToLINE, fetch. rewrite try_catch_call.
    destruct (host_fetch url (fetch_options tok to message) s) as [[[] | e] s'].
    + repeat split; [cbn; lia | discriminate].
    + cbn [res after]. rewrite appends_after.
      rewrite logger_works, (logError_appends_once _ _ (logger_works _ _)).
      repeat split; cbn; lia.
  - rewrite send_skipped by assumption.
    rewrite (try_catch_Ok _ _ _ tt (logger_works _ _)).
    rewrite logger_works, (logError_appends_once _ _ (logger_works _ _)).
    repeat split; lia.
Qed.

Lemma run_returns s : res (checkReturnDatesAndNotify s) = Ok tt.
Proof.
  unfold checkReturnDatesAndNotify, try_checkReturnDatesAndNotify.
  match goal with |- res (try_catch ?body _ s) = _ => destruct (res (body s)) as [[] | e] eqn:E end.
  - now rewrite (try_catch_Ok _ _ _ _ E).
  - rewrite (try_catch_Throw _ _ _ _ E). apply logger_works.
Qed.

End LoggerWorks.

(** *** Reading the log *)

Lemma logged_messages_app evs evs' :
  logged_messages (evs ++ evs') = logged_messages evs ++ logged_messages evs'.
Proof. unfold logged_messages. apply flat_map_app. Qed.

Lemma no_append_no_message evs : appends evs = 0%nat -> logged_messages evs = [].
Proof.
  unfold appends. induction evs as [| ev evs IH]; [reflexivity |].
  destruct ev; simpl; try exact IH. discriminate.
Qed.

Lemma logError_messages msg s :
  res (logError msg s) = Ok tt ->
  logged_messages (emitted (logError msg s)) = [VStr msg].
Proof.
  intros E. destruct (logError_Ok msg s E) as (evs & sheet & stamp & -> & Ha).
  rewrite logged_messages_app, (no_append_no_message _ Ha). reflexivity.
Qed.






End ScriptFacts.

(** ** The theorems at work on the in-memory host *)

Module Examples.
Import InMemory.
#[local] Existing Instance runtime.

(** C1: two rows due on the fifth (the same title twice), one due on the
    fourth in between. *)
Lemma getBooksDueOnDate_titles_witness :
  res (getBooksDueOnDate (RT := runtime) (HO := host false false) (VStr "2024/01/05")
         (library settings
            [loan_row (VStr "Book A") (VDate (Some jan5));
             loan_row (VStr "Book B") (VDate (Some jan4));
             loan_row (VStr "Book A") (VDate (Some jan5))]))
  = Ok [VStr "Book A"; VStr "Book A"].
Proof.
  pose (s := library settings
               [loan_row (VStr "Book A") (VDate (Some jan5));
                loan_row (VStr "Book B") (VDate (Some jan4));
                loan_row (VStr "Book A") (VDate (Some jan5))]).
  destruct (getBooksDueOnDate_titles (RT := runtime) (HO := host false false)
              "2024/01/05" s s s s s 0%N 1%N 1%N (rows_of s 1%N)
              eq_refl eq_refl eq_refl eq_refl) as [E _].
  fold s. rewrite E. vm_compute. reflexivity.
Defined.

(** C2: a due-date cell holding a text that is not the target. *)
Lemma non_date_due_cell_witness :
  let row := loan_row (VStr "Book C") (VStr "next week") in
  (forall t, cell row 6 <> VDate t)
  /\ formatDate (RT := runtime) (cell row 6) = cell row 6
  /\ (is_due (RT := runtime) (VStr "2024/01/05") row = true
      <-> cell row 6 = VStr "2024/01/05").
Proof.
  intros row.
  assert (H : forall t, cell row 6 <> VDate t) by (intros t; discriminate).
  split; [exact H |].
  destruct (non_date_due_cell (RT := runtime) "2024/01/05" [] row [] [] H) as (F & D & _).
  split; [exact F | exact D].
Defined.

(** C2 as stated fails: a due-date cell holding the text [2024/01/05] is not
    a date, and its row is returned for that target. *)
Lemma text_due_cell_is_matched :
  ~ (forall (target : string) (row : list value),
       (forall t, cell row 6 <> VDate t) ->
       res (getBooksDueOnDate (RT := runtime) (HO := host false false) (VStr target)
              (library settings [row]))
       = Ok []).
Proof.
  intros H.
  specialize (H "2024/01/05" (loan_row (VStr "Book A") (VStr "2024/01/05"))
                ltac:(intros t; discriminate)).
  vm_compute in H. discriminate.
Qed.

(** C3: the settings sheet has no [ACCESS_TOKEN] row. *)
Lemma missing_settings_stop_witness :
  let s := library [[VStr "URL"; VStr "https://api.line.me/v2/bot/message/push"];
                    [VStr "TO_USER_ID"; VStr "U1"]]
             [loan_row (VStr "Book A") (VDate (Some jan5))] in
  let run := checkReturnDatesAndNotify (RT := runtime) (HO := host false false) s in
  fetches (emitted run) = 0%nat
  /\ res run = Ok tt
  /\ last (emitted run)
     = Some (CallAppendRow 2%N [VStr (Date_toLocaleString (Runtime := runtime) (Some jan4));
                                VStr CONFIG_ERROR]).
Proof.
  intros s run.
  pose (config := Obj (config_of_rows (RT := runtime)
                         [[VStr "URL"; VStr "https://api.line.me/v2/bot/message/push"];
                          [VStr "TO_USER_ID"; VStr "U1"]])).
  assert (E : res (getConfig (RT := runtime) (HO := host false false) s) = Ok config)
    by (vm_compute; reflexivity).
  assert (U : Spec.configuration_unusable config).
  { right. right. left. left. vm_compute. reflexivity. }
  destruct (missing_settings_stop (RT := runtime) (HO := host false false) s config E U)
    as (_ & F & _ & L).
  split; [exact F |].
  destruct (L ltac:(vm_compute; reflexivity)) as (R & sheet & stamp & La).
  split; [exact R |]. vm_compute. reflexivity.
Defined.

(** C4: two titles due tomorrow. *)
Lemma notification_message_witness :
  let s := library settings
             [loan_row (VStr "Book A") (VDate (Some jan5));
              loan_row (VStr "Book B") (VDate (Some jan5))] in
  let run := checkReturnDatesAndNotify (RT := runtime) (HO := host false false) s in
  build_message (RT := runtime) [VStr "Book A"; VStr "Book B"]
  = String.concat nl [MESSAGE_HEADER; "Book A"; "Book B"; EmptyString; MESSAGE_URL]
  /\ fetches (emitted run) = 1%nat.
Proof.
  intros s run.
  pose (config := Obj (config_of_rows (RT := runtime) settings)).
  pose (o := and_then (getConfig (RT := runtime) (HO := host false false) s)
               (let* t := now in getBooksDueOnDate (tomorrow_of t))).
  assert (D : due_list (RT := runtime) (HO := host false false) s config
                [VStr "Book A"; VStr "Book B"] o).
  { repeat split; vm_compute; reflexivity. }
  destruct (notification_message (RT := runtime) (HO := host false false) s config _ o D)
    as [_ N].
  destruct (N ltac:(discriminate)) as (_ & T & _ & F & _).
  split; [exact (T ["Book A"; "Book B"] eq_refl) | exact F].
Defined.

Lemma in_memory_logger_works unreadable msg s :
  res (logError (RT := runtime) (HO := host false unreadable) msg s) = Ok tt.
Proof.
  unfold logError, bind, getActiveSpreadsheet, getSheetByName, insertSheet, appendRow, now,
    call, ret. simpl.
  destruct (find_tab ERROR_LOG_SHEET_NAME (tabs s) 0); reflexivity.
Qed.



End Examples.

(** ** More about formatDate and addDays *)

Section MoreEngineFacts.
Context `{RT : Runtime}.
Import ESDate ESDateFacts.

(** *** What formatDate prints *)

Lemma free_of_uint d : free_of "/" (NilEmpty.string_of_uint d) = true.
Proof. induction d; simpl; auto. Qed.

Lemma free_of_Z_toString z : free_of "/" (Z_toString z) = true.
Proof.
  unfold Z_toString, NilZero.string_of_int, NilZero.string_of_uint.
  destruct (Z.to_int z) as [d | d]; destruct d; simpl; auto using free_of_uint.
Qed.

Lemma Z_toString_inj y y' : Z_toString y = Z_toString y' -> y = y'.
Proof.
  unfold Z_toString. intros E. apply to_int_inj.
  assert (N : forall z, Z.to_int z <> Pos Nil /\ Z.to_int z <> Neg Nil).
  { intros [| p | p]; simpl; split; try discriminate;
      intros [= F]; now apply DecimalPos.Unsigned.to_uint_nonnil in F. }
  assert (S : Some (Z.to_int y) = Some (Z.to_int y')).
  { rewrite <- (NilZero.isi (Z.to_int y)), <- (NilZero.isi (Z.to_int y')) by apply N.
    now rewrite E. }
  now injection S.
Qed.

Lemma split_at_slash (a a' b b' : string) :
  free_of "/" a = true -> free_of "/" a' = true ->
  a +:+ "/" +:+ b = a' +:+ "/" +:+ b' -> a = a' /\ b = b'.
Proof.
  revert a'. induction a as [| c a IH]; intros [| c' a'] Fa Fa' E.
  - now injection E.
  - exfalso. injection E as E1 E2. simpl in Fa'. rewrite <- E1 in Fa'. discriminate.
  - exfalso. injection E as E1 E2. simpl in Fa. rewrite E1 in Fa. discriminate.
  - injection E as E1 E2. simpl in Fa, Fa'.
    apply andb_prop in Fa as [_ Fa]. apply andb_prop in Fa' as [_ Fa'].
    destruct (IH a' Fa Fa' E2) as [-> ->]. now subst.
Qed.

Lemma digit_inj a b : 0 <= a <= 9 -> 0 <= b <= 9 -> Spec.digit a = Spec.digit b -> a = b.
Proof.
  unfold Spec.digit. intros Ha Hb E.
  apply (f_equal nat_of_ascii) in E.
  rewrite !nat_ascii_embedding in E by lia. lia.
Qed.

Lemma two_digits_inj a b :
  0 <= a <= 99 -> 0 <= b <= 99 -> Spec.two_digits a = Spec.two_digits b -> a = b.
Proof.
  unfold Spec.two_digits. intros Ha Hb [= E1 E2].
  apply digit_inj in E1; [| Z.div_mod_to_equations; lia ..].
  apply digit_inj in E2; [| Z.div_mod_to_equations; lia ..].
  Z.div_mod_to_equations; lia.
Qed.

Lemma digit_not_slash k : 0 <= k <= 9 -> Ascii.eqb (Spec.digit k) "/" = false.
Proof.
  intros Hk. apply Ascii.eqb_neq. intros E. unfold Spec.digit in E.
  apply (f_equal nat_of_ascii) in E. rewrite nat_ascii_embedding in E by lia.
  replace (nat_of_ascii "/") with 47%nat in E by reflexivity. lia.
Qed.

Lemma free_of_two_digits n : 0 <= n <= 99 -> free_of "/" (Spec.two_digits n) = true.
Proof.
  intros Hn. unfold Spec.two_digits. cbn [free_of].
  rewrite !digit_not_slash by (Z.div_mod_to_equations; lia). reflexivity.
Qed.

Lemma formatDate_same_day t t' :
  formatDate (VDate (Some t)) = formatDate (VDate (Some t'))
  <-> Spec.calendar_date t = Spec.calendar_date t'.
Proof.
  rewrite !formatDate_string. unfold Spec.calendar_date, civil.
  pose proof (MonthFromTime_range (LocalTime t)).
  pose proof (MonthFromTime_range (LocalTime t')).
  pose proof (DateFromTime_range (LocalTime t)).
  pose proof (DateFromTime_range (LocalTime t')).
  split.
  - intros [= E].
    apply split_at_slash in E as [Ey E]; [| apply free_of_Z_toString ..].
    apply Z_toString_inj in Ey.
    apply split_at_slash in E as [Em Ed]; [| apply free_of_two_digits; lia ..].
    apply two_digits_inj in Em; [| lia ..].
    apply two_digits_inj in Ed; [| lia ..].
    f_equal; [f_equal |]; lia.
  - intros [= -> -> ->]. reflexivity.
Qed.

(** X1.  Two dates are formatted to the same string exactly when they fall
    on the same local calendar day (year, month and day of the month); the
    time of day plays no part. *)
Theorem formatDate_separates_days (t t' : Z) :
  formatDate (VDate (Some t)) = formatDate (VDate (Some t'))
  <-> Spec.calendar_date t = Spec.calendar_date t'.
Proof. apply formatDate_same_day. Qed.

(** *** addDays for every integer *)

Lemma addDays_new_value (h : store) (date : ref) (n : Z) :
  addDays h date n
  = (h ++ [match thisTimeValue h date with
           | Some t => TimeClip (UTC (LocalTime t + n * msPerDay))
           | None => None
           end],
     length h).
Proof.
  rewrite addDays_unfold. destruct (thisTimeValue h date) as [t |].
  - now rewrite setDate_value_shift.
  - reflexivity.
Qed.

Lemma thisTimeValue_new (h : store) v : thisTimeValue (h ++ [v]) (length h) = v.
Proof. unfold thisTimeValue. now rewrite (list_lookup_middle h [] v (length h) eq_refl). Qed.

Lemma thisTimeValue_old (h : store) v d :
  (d < length h)%nat -> thisTimeValue (h ++ [v]) d = thisTimeValue h d.
Proof. intros L. unfold thisTimeValue. now rewrite lookup_app_l. Qed.

(** X2.  For every integer [n], negative ones too, [addDays(d, n)] makes one
    new object and changes no other.  The new object is the Invalid Date when
    [d] is; otherwise the local time of [d] is moved by [n] times 86,400,000
    milliseconds and read back as a time value [u] with the offset the zone
    has at that local time, and the new object holds [u], or is the Invalid
    Date when [u] leaves the range of time values.  Where the offset at the
    new local time is the offset at [d], [u] is the time value of [d] plus
    exactly [n] times 86,400,000 milliseconds; across a change of the offset
    it is not. *)
Theorem addDays_every_integer (h : store) (date : ref) (n : Z) :
  let r := addDays h date n in
  r.2 = length h
  /\ (forall d, (d < length h)%nat -> r.1 !! d = h !! d)
  /\ length r.1 = S (length h)
  /\ thisTimeValue r.1 r.2
     = match thisTimeValue h date with
       | None => None
       | Some t =>
           let u := UTC (LocalTime t + n * msPerDay) in
           if Z.abs u <=? maxTime then Some u else None
       end
  /\ (forall t, LocalTZA (LocalTime t + n * msPerDay) false = LocalTZA t true ->
                UTC (LocalTime t + n * msPerDay) = t + n * msPerDay).
Proof.
  cbv zeta. rewrite addDays_new_value. cbn [fst snd].
  split; [reflexivity | split; [| split; [| split]]].
  - intros d L. now rewrite lookup_app_l.
  - rewrite length_app. simpl. lia.
  - rewrite thisTimeValue_new. destruct (thisTimeValue h date) as [t |]; [| reflexivity].
    unfold TimeClip.
    destruct (Z.ltb_spec maxTime (Z.abs (UTC (LocalTime t + n * msPerDay)))),
             (Z.leb_spec (Z.abs (UTC (LocalTime t + n * msPerDay))) maxTime);
      try reflexivity; lia.
  - intros t E. unfold UTC. rewrite E. unfold LocalTime. lia.
Qed.

(** X3.  Adding [a] days and then [b] days to the result gives the date that
    adding [a + b] days gives, provided the date in between is in range and
    its local time is the local time of the first date moved by [a] days
    (the zone neither skips nor repeats that local time); the first date and
    the one in between are left as they were. *)
Theorem addDays_twice (h : store) (date : ref) (t a b : Z) :
  h !! date = Some (Some t) ->
  let x := LocalTime t + a * msPerDay in
  Z.abs (UTC x) <= maxTime ->
  LocalTime (UTC x) = x ->
  let r1 := addDays h date a in
  let r2 := addDays r1.1 r1.2 b in
  let r := addDays h date (a + b) in
  thisTimeValue r2.1 r2.2 = thisTimeValue r.1 r.2
  /\ thisTimeValue r2.1 r1.2 = Some (UTC x)
  /\ thisTimeValue r2.1 date = Some t.
Proof.
  intros Hd x Ha Hx. cbv zeta.
  assert (L : (date < length h)%nat) by (eapply lookup_lt_Some; eauto).
  assert (Ht : thisTimeValue h date = Some t) by (unfold thisTimeValue; now rewrite Hd).
  rewrite !addDays_new_value. cbn [fst snd]. rewrite Ht. fold x.
  rewrite (TimeClip_in_range _ Ha), thisTimeValue_new. rewrite !thisTimeValue_new.
  split; [| split].
  - rewrite Hx. subst x. do 2 f_equal. lia.
  - rewrite thisTimeValue_old by (rewrite length_app; simpl; lia). apply thisTimeValue_new.
  - rewrite !thisTimeValue_old by (rewrite ?length_app; simpl; lia). exact Ht.
Qed.

(** *** The day the run looks for *)

Lemma tomorrow_of_value now :
  tomorrow_of now = formatDate (VDate (TimeClip (UTC (LocalTime now + 1 * msPerDay)))).
Proof.
  unfold tomorrow_of, new_Date. cbn [length app].
  rewrite addDays_new_value. unfold thisTimeValue at 2. cbn [lookup list_lookup].
  cbn [length]. now rewrite (thisTimeValue_new [Some now]).
Qed.

(** X4.  The target of the run is tomorrow: provided the local time one day
    after the clock is in range and the zone does not move it to another
    calendar day (no change of the zone's offset skips it), a row whose
    due-date cell is a date is selected by the filter of
    [checkReturnDatesAndNotify] exactly when that date falls on the calendar
    day after the day of the clock, whatever the times of day. *)
Theorem due_exactly_tomorrow (now t : Z) (row : list value) :
  cell row 6 = VDate (Some t) ->
  let x := LocalTime now + 1 * msPerDay in
  Z.abs (UTC x) <= maxTime ->
  civil (LocalTime (UTC x)) = civil x ->
  is_due (tomorrow_of now) row = true
  <-> Spec.calendar_date t = Spec.next_day (Spec.calendar_date now).
Proof.
  intros Hc x Hr Hz. rewrite tomorrow_of_value. fold x.
  rewrite (TimeClip_in_range _ Hr). unfold is_due. rewrite Hc.
  assert (En : Spec.next_day (Spec.calendar_date now) = Spec.calendar_date (UTC x)).
  { unfold Spec.calendar_date. rewrite Hz, <- civil_next. subst x. f_equal; lia. }
  rewrite En, <- formatDate_same_day.
  rewrite (formatDate_string t), (formatDate_string (UTC x)).
  cbn [strict_equals]. rewrite String.eqb_eq.
  split; [now intros -> | now intros [= ->]].
Qed.

End MoreEngineFacts.

(** ** More about the script *)

Section MoreScriptFacts.
Context `{RT : Runtime} `{HO : Host}.

(** *** The settings *)

Lemma config_fold_lookup (key : string) (data : list (list value)) (acc : gmap string value) :
  key <> "__proto__" ->
  fold_left (fun config row => set_field config (cell row 0) (cell row 1)) data acc !! key
  = match last_setting key data with
    | Some v => Some v
    | None => acc !! key
    end.
Proof.
  intros Hk. revert acc. induction data as [| row rest IH]; intros acc; [reflexivity |].
  simpl. rewrite IH. destruct (last_setting key rest) as [v |]; [reflexivity |].
  unfold set_field. destruct (String.eqb_spec (ToString (cell row 0)) "__proto__") as [E | N].
  - destruct (String.eqb_spec (ToString (cell row 0)) key) as [E' | _]; [congruence | reflexivity].
  - destruct (String.eqb_spec (ToString (cell row 0)) key) as [E' | N'].
    + rewrite E'. apply lookup_insert_eq.
    + now rewrite lookup_insert_ne.
Qed.

Lemma config_fold_proto (data : list (list value)) (acc : gmap string value) :
  acc !! "__proto__" = None ->
  fold_left (fun config row => set_field config (cell row 0) (cell row 1)) data acc
    !! "__proto__" = None.
Proof.
  revert acc. induction data as [| row rest IH]; intros acc Ha; [exact Ha |].
  simpl. apply IH. unfold set_field.
  destruct (String.eqb_spec (ToString (cell row 0)) "__proto__") as [E | N]; [exact Ha |].
  now rewrite lookup_insert_ne.
Qed.

Lemma last_setting_app key data data' :
  last_setting key (data ++ data')
  = match last_setting key data' with
    | Some v => Some v
    | None => last_setting key data
    end.
Proof.
  induction data as [| row rest IH]; simpl.
  - now destruct (last_setting key data').
  - rewrite IH. now destruct (last_setting key data').
Qed.

(** X5.  The configuration object holds, under every key but [__proto__],
    the value of the last row of the settings table with that key, and
    nothing when no row has it: a later row overwrites an earlier one with
    the same key.  A row whose key is [__proto__] makes no entry. *)
Theorem config_of_rows_lookup (data : list (list value)) :
  (forall key, key <> "__proto__" -> config_of_rows data !! key = last_setting key data)
  /\ config_of_rows data !! "__proto__" = None
  /\ (forall key v more,
        key <> "__proto__" ->
        last_setting key more = None ->
        config_of_rows (data ++ [[VStr key; v]] ++ more) !! key = Some v).
Proof.
  split; [| split].
  - intros key Hk. unfold config_of_rows. rewrite config_fold_lookup by assumption.
    rewrite lookup_empty. now destruct (last_setting key data).
  - apply config_fold_proto, lookup_empty.
  - intros key v more Hk Hm. unfold config_of_rows.
    rewrite config_fold_lookup by assumption.
    rewrite !last_setting_app, Hm. simpl. now rewrite String.eqb_refl.
Qed.

(** X6.  The check of the settings never throws, and it lets the run go on
    exactly when the configuration is truthy and [URL], [ACCESS_TOKEN] and
    [TO_USER_ID] are all truthy: a setting that is absent, empty, [0],
    [NaN] or [false] stops the run. *)
Theorem settings_missing_iff_incomplete (config : jsval) :
  settings_missing config = Ok (negb (settings_complete config)).
Proof.
  unfold settings_missing, settings_complete, not_field, or_else, setting, get_field.
  destruct config as [v | fields].
  - destruct v as [| | [] | n | str | t]; simpl; try reflexivity.
    + now destruct (number_truthy n).
    + now destruct (String.eqb str EmptyString).
  - simpl.
    destruct (fields !! "URL") as [u |]; simpl; [destruct (ToBoolean u); simpl |];
      try reflexivity.
    destruct (fields !! "ACCESS_TOKEN") as [a |]; simpl; [destruct (ToBoolean a); simpl |];
      try reflexivity.
    destruct (fields !! "TO_USER_ID") as [i |]; simpl; [destruct (ToBoolean i); simpl |];
      reflexivity.
Qed.

Ltac step_call :=
  first [rewrite try_catch_bind_call | rewrite try_catch_call].

(** *** getConfig *)

(** X7.  When the settings sheet is found and read, [getConfig] asks for the
    range of rows 1 to the last row and columns 1 to 2, returns the object
    made of its rows, and logs nothing.  Each of the three settings the
    script reads from that object ([URL], [ACCESS_TOKEN], [TO_USER_ID]) is
    the value of the last row with that key, and [undefined] when no row has
    it. *)
Theorem getConfig_reads_settings (s s1 s2 s3 s4 s5 : Ext) (ss sheet range : handle)
    (lastRow : Z) (data : list (list value)) :
  host_getActiveSpreadsheet s = (Ok ss, s1) ->
  host_getSheetByName ss SETTINGS_SHEET_NAME s1 = (Ok (Some sheet), s2) ->
  host_getLastRow sheet s2 = (Ok lastRow, s3) ->
  host_getRange sheet 1 1 lastRow 2 s3 = (Ok range, s4) ->
  host_getValues range s4 = (Ok data, s5) ->
  getConfig s
  = {| res := Ok (Obj (config_of_rows data));
       final := s5;
       emitted := [CallGetActiveSpreadsheet; CallGetSheetByName ss SETTINGS_SHEET_NAME;
                   CallGetLastRow sheet; CallGetRange sheet 1 1 lastRow 2;
                   CallGetValues range] |}
  /\ (forall key : setting_name,
        setting (Obj (config_of_rows data)) key
        = match last_setting (key_of key) data with
          | Some v => v
          | None => VUndefined
          end).
Proof.
  intros E1 E2 E3 E4 E5. split.
  - unfold getConfig, try_getConfig, getActiveSpreadsheet, getSheetByName, getLastRow, getRange, getValues.
    step_call. rewrite E1. step_call. rewrite E2. step_call. rewrite E3.
    step_call. rewrite E4. step_call. rewrite E5. reflexivity.
  - intros key. unfold setting, config_of_rows.
    rewrite config_fold_lookup by (destruct key; discriminate). rewrite lookup_empty.
    now destruct (last_setting (key_of key) data).
Qed.

Lemma getConfig_sheet_missing (s s1 s2 : Ext) (ss : handle) :
  host_getActiveSpreadsheet s = (Ok ss, s1) ->
  host_getSheetByName ss SETTINGS_SHEET_NAME s1 = (Ok None, s2) ->
  res (logError "設定シートが見つかりません。" s2) = Ok tt ->
  getConfig s
  = after [CallGetActiveSpreadsheet; CallGetSheetByName ss SETTINGS_SHEET_NAME]
      {| res := Ok (Prim VNull);
         final := final (logError "設定シートが見つかりません。" s2);
         emitted := emitted (logError "設定シートが見つかりません。" s2) |}.
Proof.
  intros E1 E2 L.
  unfold getConfig, try_getConfig, getActiveSpreadsheet, getSheetByName.
  step_call. rewrite E1. step_call. rewrite E2.
  rewrite (try_catch_Ok _ _ _ (Prim VNull)); rewrite (bind_Ok _ _ _ tt L).
  - unfold after, and_then, ret. cbn [res final emitted]. now rewrite !app_nil_r.
  - reflexivity.
Qed.

(** X8.  When there is no settings sheet, [getConfig] makes no further call
    to the sheets than the error logger's, logs that the settings sheet was
    not found, and returns [null]. *)
Theorem getConfig_without_sheet (s s1 s2 : Ext) (ss : handle) :
  host_getActiveSpreadsheet s = (Ok ss, s1) ->
  host_getSheetByName ss SETTINGS_SHEET_NAME s1 = (Ok None, s2) ->
  res (logError "設定シートが見つかりません。" s2) = Ok tt ->
  let o := getConfig s in
  res o = Ok (Prim VNull)
  /\ emitted o
     = [CallGetActiveSpreadsheet; CallGetSheetByName ss SETTINGS_SHEET_NAME]
       ++ emitted (logError "設定シートが見つかりません。" s2)
  /\ logged_messages (emitted o) = [VStr "設定シートが見つかりません。"].
Proof.
  intros E1 E2 L o. subst o. rewrite (getConfig_sheet_missing s s1 s2 ss E1 E2 L).
  cbn [res after emitted]. repeat split.
  rewrite logged_messages_app. now rewrite logError_messages.
Qed.

(** *** getBooksDueOnDate *)

Lemma getBooksDueOnDate_sheet_missing target (s s1 s2 : Ext) (ss : handle) :
  host_getActiveSpreadsheet s = (Ok ss, s1) ->
  host_getSheetByName ss DATA_SHEET_NAME s1 = (Ok None, s2) ->
  res (logError "返却期限シートが見つかりません。" s2) = Ok tt ->
  getBooksDueOnDate target s
  = after [CallGetActiveSpreadsheet; CallGetSheetByName ss DATA_SHEET_NAME]
      {| res := Ok [];
         final := final (logError "返却期限シートが見つかりません。" s2);
         emitted := emitted (logError "返却期限シートが見つかりません。" s2) |}.
Proof.
  intros E1 E2 L.
  unfold getBooksDueOnDate, try_getBooksDueOnDate, getActiveSpreadsheet, getSheetByName.
  step_call. rewrite E1. step_call. rewrite E2.
  rewrite (try_catch_Ok _ _ _ []); rewrite (bind_Ok _ _ _ tt L).
  - unfold after, and_then, ret. cbn [res final emitted]. now rewrite !app_nil_r.
  - reflexivity.
Qed.

(** X9.  When there is no loan sheet, [getBooksDueOnDate] reads no cell,
    logs that the sheet was not found, and returns the empty list, whatever
    the target. *)
Theorem getBooksDueOnDate_without_sheet (target : value) (s s1 s2 : Ext) (ss : handle) :
  host_getActiveSpreadsheet s = (Ok ss, s1) ->
  host_getSheetByName ss DATA_SHEET_NAME s1 = (Ok None, s2) ->
  res (logError "返却期限シートが見つかりません。" s2) = Ok tt ->
  let o := getBooksDueOnDate target s in
  res o = Ok []
  /\ emitted o
     = [CallGetActiveSpreadsheet; CallGetSheetByName ss DATA_SHEET_NAME]
       ++ emitted (logError "返却期限シートが見つかりません。" s2)
  /\ logged_messages (emitted o) = [VStr "返却期限シートが見つかりません。"].
Proof.
  intros E1 E2 L o. subst o.
  rewrite (getBooksDueOnDate_sheet_missing target s s1 s2 ss E1 E2 L).
  cbn [res after emitted]. repeat split.
  rewrite logged_messages_app. now rewrite logError_messages.
Qed.

(** X10.  The titles returned are the fourth cells of the rows after the
    first that are due, no more and no fewer: they are at most as many as
    those rows, and the first row of the table plays no part, whatever it
    holds. *)
Theorem dueBooks_members (target : value) (data : list (list value)) :
  (forall title,
     In title (dueBooks target data)
     <-> exists row, In row (drop 1 data) /\ is_due target row = true /\ cell row 3 = title)
  /\ (length (dueBooks target data) <= length data - 1)%nat
  /\ (forall header header' rows,
        dueBooks target (header :: rows) = dueBooks target (header' :: rows))
  /\ dueBooks target [] = [].
Proof.
  unfold dueBooks. split; [| split; [| split]].
  - intros title. rewrite in_map_iff. split.
    + intros (row & E & I). apply filter_In in I as [I D]. eauto.
    + intros (row & I & D & E). exists row. split; [exact E |]. apply filter_In. auto.
  - rewrite length_map. etransitivity; [apply filter_length_le |].
    rewrite length_drop. lia.
  - reflexivity.
  - reflexivity.
Qed.

(** *** logError *)

(** X11.  The error logger looks the error-log sheet up by name.  When the
    sheet is there, it appends the row of the local time and the message to
    it and makes no other call; when it is not, it inserts a sheet of that
    name and appends the row to the new sheet.  What appending returns or
    throws is what the logger returns or throws. *)
Theorem logError_finds_or_inserts (msg : string) (s s1 s2 : Ext) (ss : handle)
    (found : option handle) :
  host_getActiveSpreadsheet s = (Ok ss, s1) ->
  host_getSheetByName ss ERROR_LOG_SHEET_NAME s1 = (Ok found, s2) ->
  let o := logError msg s in
  match found with
  | Some sheet =>
      let row := [VStr (Date_toLocaleString (Some (host_now s2).1)); VStr msg] in
      emitted o
      = [CallGetActiveSpreadsheet; CallGetSheetByName ss ERROR_LOG_SHEET_NAME;
         CallAppendRow sheet row]
      /\ (res o, final o) = host_appendRow sheet row (host_now s2).2
  | None =>
      forall ss' s3 sheet s4,
        host_getActiveSpreadsheet s2 = (Ok ss', s3) ->
        host_insertSheet ss' ERROR_LOG_SHEET_NAME s3 = (Ok sheet, s4) ->
        let row := [VStr (Date_toLocaleString (Some (host_now s4).1)); VStr msg] in
        emitted o
        = [CallGetActiveSpreadsheet; CallGetSheetByName ss ERROR_LOG_SHEET_NAME;
           CallGetActiveSpreadsheet; CallInsertSheet ss' ERROR_LOG_SHEET_NAME;
           CallAppendRow sheet row]
        /\ (res o, final o) = host_appendRow sheet row (host_now s4).2
  end.
Proof.
  intros E1 E2 o. subst o.
  unfold logError, bind, ret, now, getActiveSpreadsheet, getSheetByName, insertSheet,
    appendRow, call.
  rewrite E1. cbn [res final emitted]. rewrite E2. cbn [res final emitted].
  destruct found as [sheet |].
  - cbn [res final emitted]. destruct (host_now s2) as [t s3]. cbn [res final emitted fst snd].
    destruct (host_appendRow sheet _ s3) as [[[] | e] s4]; split; reflexivity.
  - intros ss' s3 sheet s4 E3 E4. rewrite E3. cbn [res final emitted]. rewrite E4.
    cbn [res final emitted]. destruct (host_now s4) as [t s5]. cbn [res final emitted fst snd].
    destruct (host_appendRow sheet _ s5) as [[[] | e] s6]; split; reflexivity.
Qed.

(** *** sendMessageToLINE *)

Lemma get_field_setting config key :
  truthy config = true -> get_field config key = Ok (setting config key).
Proof.
  destruct config as [[] | fields]; simpl; try discriminate; try reflexivity.
  now destruct (fields !! key_of key).
Qed.

Lemma send_as_try_fetch config message s :
  truthy config && ToBoolean message = true ->
  sendMessageToLINE config message s
  = try_catch (fetch (setting config URL)
                 (fetch_options (setting config ACCESS_TOKEN)
                    (setting config TO_USER_ID) message))
      catch_sendMessageToLINE s.
Proof.
  intros E. destruct (send_attempted config message s E) as (u & a & i & Eu & Ea & Ei & ->).
  apply andb_prop in E as [Ec _].
  rewrite (get_field_setting _ _ Ec) in Eu.
  rewrite (get_field_setting _ _ Ec) in Ea.
  rewrite (get_field_setting _ _ Ec) in Ei.
  injection Eu as <-. injection Ea as <-. injection Ei as <-. reflexivity.
Qed.

(** X12.  With a truthy configuration and message, [sendMessageToLINE] makes
    its one request.  When the request returns, nothing else happens and
    nothing is logged.  When it throws, the request is not made again: the
    error is handed to the error logger with the name of the function before
    its message, and [sendMessageToLINE] returns normally when the logger
    does. *)
Theorem sendMessageToLINE_outcome (config : jsval) (message : value) (s s' : Ext)
    (r : result unit) :
  truthy config && ToBoolean message = true ->
  host_fetch (setting config URL)
    (fetch_options (setting config ACCESS_TOKEN) (setting config TO_USER_ID) message) s
  = (r, s') ->
  let o := sendMessageToLINE config message s in
  match r with
  | Ok _ =>
      o = {| res := Ok tt; final := s'; emitted := [line_request config message] |}
  | Throw e =>
      let report := logError ("sendMessageToLINE関数でエラー: " +:+ e) s' in
      o = after [line_request config message] report
      /\ fetches (emitted o) = 1%nat
      /\ (res report = Ok tt ->
          res o = Ok tt
          /\ logged_messages (emitted o) = [VStr ("sendMessageToLINE関数でエラー: " +:+ e)])
  end.
Proof.
  intros E F o. subst o. rewrite (send_as_try_fetch _ _ _ E).
  unfold fetch. rewrite try_catch_call, F. unfold line_request.
  destruct r as [[] | e]; [reflexivity |].
  unfold catch_sendMessageToLINE. cbv zeta. split; [reflexivity | split].
  - cbn [after emitted]. rewrite fetches_app.
    now rewrite (not_fetch_count _ (logError_no_fetch _ s')).
  - intros L. cbn [after res emitted]. split; [exact L |].
    rewrite logged_messages_app, (logError_messages _ _ L). reflexivity.
Qed.

(** *** Runs that stop early *)

Lemma bind_now {A} (k : Z -> M A) s t s' :
  host_now s = (t, s') -> bind now k s = k t s'.
Proof.
  intros E. unfold bind, now. rewrite E. cbn [res final emitted].
  apply outcome_eq; reflexivity.
Qed.

(** X13.  A run without a settings sheet logs twice when the logger works,
    first that the sheet was not found, then that the settings could not be
    read; it looks at no loan and makes no request. *)
Theorem run_without_settings_sheet (s s1 s2 : Ext) (ss : handle) :
  host_getActiveSpreadsheet s = (Ok ss, s1) ->
  host_getSheetByName ss SETTINGS_SHEET_NAME s1 = (Ok None, s2) ->
  (forall msg s, res (logError msg s) = Ok tt) ->
  let run := checkReturnDatesAndNotify s in
  res run = Ok tt
  /\ logged_messages (emitted run)
     = [VStr "設定シートが見つかりません。"; VStr CONFIG_ERROR]
  /\ fetches (emitted run) = 0%nat
  /\ forallb (fun ev => negb (is_loans_call ev)) (emitted run) = true.
Proof.
  intros E1 E2 L run.
  pose proof (getConfig_sheet_missing s s1 s2 ss E1 E2 (L _ _)) as G.
  assert (R : res (getConfig s) = Ok (Prim VNull)) by now rewrite G.
  assert (M : logged_messages (emitted (getConfig s)) = [VStr "設定シートが見つかりません。"]).
  { rewrite G. cbn [after emitted]. rewrite logged_messages_app.
    now rewrite (logError_messages _ _ (L _ _)). }
  pose proof (run_shape s) as H. cbv zeta in H. rewrite R in H.
  change (settings_missing (Prim VNull)) with (@Ok bool true) in H. cbv iota in H.
  fold run in H.
  assert (Q : forallb is_quiet (emitted run) = true).
  { rewrite H. apply quiet_and_then; [apply getConfig_quiet |].
    apply only_try_catch; [apply logError_quiet | apply catch_quiet]. }
  split; [| split; [| split]].
  - rewrite H. unfold and_then. cbn [res]. now rewrite (try_catch_Ok _ _ _ tt (L _ _)).
  - rewrite H. unfold and_then. cbn [emitted]. rewrite (try_catch_Ok _ _ _ tt (L _ _)).
    rewrite logged_messages_app, M, (logError_messages _ _ (L _ _)). reflexivity.
  - now apply quiet_no_fetch.
  - now apply quiet_no_loans_call.
Qed.

(** X14.  A run with complete settings and no loan sheet goes on as if no
    book were due: when the logger works it logs once, that the loan sheet
    was not found, makes no request and returns. *)
Theorem run_without_loan_sheet (s s2 s3 s4 : Ext) (config : jsval) (t : Z) (ss : handle) :
  res (getConfig s) = Ok config ->
  settings_missing config = Ok false ->
  host_now (final (getConfig s)) = (t, s2) ->
  host_getActiveSpreadsheet s2 = (Ok ss, s3) ->
  host_getSheetByName ss DATA_SHEET_NAME s3 = (Ok None, s4) ->
  (forall msg s, res (logError msg s) = Ok tt) ->
  let run := checkReturnDatesAndNotify s in
  res run = Ok tt
  /\ logged_messages (emitted run) = [VStr "返却期限シートが見つかりません。"]
  /\ fetches (emitted run) = 0%nat.
Proof.
  intros R Sm N E1 E2 L run.
  pose proof (getBooksDueOnDate_sheet_missing (tomorrow_of t) s2 s3 s4 ss E1 E2 (L _ _)) as B.
  assert (M : logged_messages (emitted (getConfig s)) = []).
  { destruct (getConfig_fallback L s) as [(fields & _ & A) | [R' _]].
    - now apply no_append_no_message.
    - rewrite R in R'. injection R' as ->. discriminate. }
  pose proof (run_shape s) as H. cbv zeta in H. rewrite R, Sm in H.
  pose proof (before_send_no_fetch s) as F0.
  remember (and_then (getConfig s) (let* t := now in getBooksDueOnDate (tomorrow_of t)))
    as o eqn:Eo.
  assert (Ro : res o = Ok []).
  { rewrite Eo. unfold and_then. cbn [res]. rewrite (bind_now _ _ _ _ N). now rewrite B. }
  assert (Mo : logged_messages (emitted o) = [VStr "返却期限シートが見つかりません。"]).
  { rewrite Eo. unfold and_then. cbn [emitted]. rewrite (bind_now _ _ _ _ N), B.
    cbn [after emitted]. rewrite !logged_messages_app, M.
    now rewrite (logError_messages _ _ (L _ _)). }
  rewrite Ro in H. simpl in H. fold run in H. rewrite H. cbn [res emitted].
  split; [reflexivity | split; [exact Mo | exact F0]].
Qed.

(** X15.  A run whose request throws makes that one request and no other,
    and when the logger works it returns normally with exactly one entry in
    the error log, the error of [sendMessageToLINE]. *)
Theorem run_with_failing_request (s s' : Ext) (config : jsval) (returnBooks : list value)
    (o : outcome (list value)) (e : string) :
  due_list s config returnBooks o ->
  returnBooks <> [] ->
  host_fetch (setting config URL)
    (fetch_options (setting config ACCESS_TOKEN) (setting config TO_USER_ID)
       (VStr (build_message returnBooks))) (final o)
  = (Throw e, s') ->
  (forall msg s, res (logError msg s) = Ok tt) ->
  let run := checkReturnDatesAndNotify s in
  res run = Ok tt
  /\ fetches (emitted run) = 1%nat
  /\ logged_messages (emitted run) = [VStr ("sendMessageToLINE関数でエラー: " +:+ e)].
Proof.
  intros (E1 & E2 & Eo & E3) N F L run.
  assert (M1 : logged_messages (emitted (getConfig s)) = []).
  { destruct (getConfig_fallback L s) as [(fields & _ & A) | [R' _]].
    - now apply no_append_no_message.
    - rewrite E1 in R'. injection R' as ->. discriminate. }
  assert (Mo : logged_messages (emitted o) = []).
  { rewrite Eo in E3 |- *. unfold and_then in *. cbn [res emitted] in *.
    destruct (host_now (final (getConfig s))) as [t s2] eqn:Hn.
    rewrite (bind_now _ _ _ _ Hn) in E3 |- *.
    destruct (getBooksDueOnDate_fallback L (tomorrow_of t) s2) as (l & R & [A | [-> _]]).
    - rewrite logged_messages_app, M1. now apply no_append_no_message.
    - congruence. }
  pose proof (run_shape s) as H. cbv zeta in H. rewrite E1, E2, <- Eo, E3 in H.
  pose proof (before_send_no_fetch s) as F0. rewrite <- Eo in F0.
  rewrite (proj2 (positive_length returnBooks) N) in H. fold run in H.
  assert (Et : truthy config && ToBoolean (VStr (build_message returnBooks)) = true)
    by (rewrite (settings_missing_truthy _ E2); apply build_message_truthy).
  assert (S : sendMessageToLINE config (VStr (build_message returnBooks)) (final o)
              = after [line_request config (VStr (build_message returnBooks))]
                  (logError ("sendMessageToLINE関数でエラー: " +:+ e) s')).
  { rewrite (send_as_try_fetch _ _ _ Et). unfold fetch. now rewrite try_catch_call, F. }
  assert (Rs : res (sendMessageToLINE config (VStr (build_message returnBooks)) (final o))
               = Ok tt) by (rewrite S; apply L).
  rewrite H. unfold and_then. rewrite (try_catch_Ok _ _ _ tt Rs). cbn [res emitted].
  split; [exact Rs | split].
  - rewrite fetches_app, F0, S. cbn [after emitted]. rewrite fetches_app.
    now rewrite (not_fetch_count _ (logError_no_fetch _ s')).
  - rewrite logged_messages_app, Mo, S. cbn [after emitted].
    rewrite logged_messages_app, (logError_messages _ _ (L _ _)). reflexivity.
Qed.

End MoreScriptFacts.

(** ** The further theorems at work *)

Module MoreExamples.
Import InMemory.
#[local] Existing Instance runtime.

(** X2: one day after noon of the 6th of May 1950 in Tokyo.  Summer time
    began on the 7th: noon of the 7th is 23 hours later, not 24. *)
Lemma addDays_every_integer_witness :
  let t := -620341200000 in
  let r := addDays [Some t] 0%nat 1 in
  thisTimeValue r.1 r.2 = Some (t + 23 * Zone.hour)
  /\ thisTimeValue r.1 0%nat = Some t
  /\ formatDate (VDate (Some t)) = VStr "1950/05/06"
  /\ formatDate (VDate (thisTimeValue r.1 r.2)) = VStr "1950/05/07".
Proof.
  intros t r.
  pose proof (addDays_every_integer [Some t] 0%nat 1) as H.
  cbv zeta in H. fold r in H. destruct H as (_ & O & _ & V & _).
  assert (E : thisTimeValue r.1 r.2 = Some (t + 23 * Zone.hour))
    by (rewrite V; vm_compute; reflexivity).
  split; [exact E |].
  split; [unfold thisTimeValue; rewrite (O 0%nat ltac:(simpl; lia)); reflexivity |].
  split; [vm_compute; reflexivity |].
  rewrite E. vm_compute. reflexivity.
Defined.

(** X3: the 30th of December 2023 plus one day and one day more. *)
Lemma addDays_twice_witness :
  let t := 1703905200000 in
  let r1 := addDays [Some t] 0%nat 1 in
  let r2 := addDays r1.1 r1.2 1 in
  thisTimeValue r2.1 r2.2 = thisTimeValue (addDays [Some t] 0%nat 2).1 1%nat
  /\ formatDate (VDate (thisTimeValue r2.1 r2.2)) = VStr "2024/01/01".
Proof.
  intros t r1 r2.
  pose proof (addDays_twice (RT := runtime) [Some t] 0%nat t 1 1 eq_refl
                ltac:(vm_compute; discriminate) ltac:(vm_compute; reflexivity)) as H.
  cbv zeta in H. destruct H as (E & _ & _).
  split; [exact E | vm_compute; reflexivity].
Defined.

(** X4: at noon on the 4th of January, a book due on the 5th at midnight. *)
Lemma due_exactly_tomorrow_witness :
  is_due (tomorrow_of jan4) (loan_row (VStr "Book A") (VDate (Some jan5))) = true.
Proof.
  apply (due_exactly_tomorrow (RT := runtime) jan4 jan5 (loan_row (VStr "Book A") (VDate (Some jan5)))
           eq_refl ltac:(vm_compute; discriminate) ltac:(vm_compute; reflexivity)).
  vm_compute. reflexivity.
Defined.

(** X7: the three settings, the token given twice. *)
Lemma getConfig_reads_settings_witness :
  let rows := settings ++ [[VStr "ACCESS_TOKEN"; VStr "renewed"]] in
  let s := library rows [] in
  res (getConfig (HO := host false false) s) = Ok (Obj (config_of_rows rows))
  /\ setting (Obj (config_of_rows rows)) ACCESS_TOKEN = VStr "renewed".
Proof.
  intros rows s.
  destruct (getConfig_reads_settings (HO := host false false) s s s s s s 0%N 0%N 0%N 4 rows
              eq_refl eq_refl eq_refl eq_refl eq_refl) as [G K].
  split; [now rewrite G |].
  rewrite (K ACCESS_TOKEN). reflexivity.
Defined.

(** X8: a spreadsheet with only the loan sheet and the error log. *)
Lemma getConfig_without_sheet_witness :
  let s := {| tabs := [(DATA_SHEET_NAME, []); (ERROR_LOG_SHEET_NAME, [])]; clock := jan4 |} in
  res (getConfig (HO := host false false) s) = Ok (Prim VNull)
  /\ logged_messages (emitted (getConfig (HO := host false false) s))
     = [VStr "設定シートが見つかりません。"].
Proof.
  intros s.
  destruct (getConfig_without_sheet (HO := host false false) s s s 0%N
              eq_refl eq_refl (Examples.in_memory_logger_works false _ _)) as (R & _ & M).
  split; [exact R | exact M].
Defined.

(** X9: a spreadsheet with only the settings and the error log. *)
Lemma getBooksDueOnDate_without_sheet_witness :
  let s := {| tabs := [(SETTINGS_SHEET_NAME, settings); (ERROR_LOG_SHEET_NAME, [])];
              clock := jan4 |} in
  res (getBooksDueOnDate (HO := host false false) (VStr "2024/01/05") s) = Ok []
  /\ logged_messages (emitted (getBooksDueOnDate (HO := host false false) (VStr "2024/01/05") s))
     = [VStr "返却期限シートが見つかりません。"].
Proof.
  intros s.
  destruct (getBooksDueOnDate_without_sheet (HO := host false false) (VStr "2024/01/05")
              s s s 0%N eq_refl eq_refl (Examples.in_memory_logger_works false _ _)) as (R & _ & M).
  split; [exact R | exact M].
Defined.

(** X11: a spreadsheet without an error log gets one, with the entry. *)
Lemma logError_finds_or_inserts_witness :
  let s := {| tabs := [(SETTINGS_SHEET_NAME, settings)]; clock := jan4 |} in
  let o := logError (HO := host false false) "oops" s in
  emitted o
  = [CallGetActiveSpreadsheet; CallGetSheetByName 0%N ERROR_LOG_SHEET_NAME;
     CallGetActiveSpreadsheet; CallInsertSheet 0%N ERROR_LOG_SHEET_NAME;
     CallAppendRow 1%N [VStr "1704337200000"; VStr "oops"]]
  /\ tabs (final o)
     = [(SETTINGS_SHEET_NAME, settings);
        (ERROR_LOG_SHEET_NAME, [[VStr "1704337200000"; VStr "oops"]])].
Proof.
  intros s o.
  pose proof (logError_finds_or_inserts (HO := host false false) "oops" s s s 0%N None
                eq_refl eq_refl) as H.
  cbv zeta in H. fold o in H.
  destruct (H 0%N s 1%N
              {| tabs := [(SETTINGS_SHEET_NAME, settings); (ERROR_LOG_SHEET_NAME, [])];
                 clock := jan4 |} eq_refl eq_refl) as [E _].
  split; [exact E | reflexivity].
Defined.

(** X12: the endpoint is out of reach. *)
Lemma sendMessageToLINE_outcome_witness :
  let s := library settings [] in
  let o := sendMessageToLINE (HO := Offline.host) (Obj (config_of_rows settings))
             (VStr "hello") s in
  res o = Ok tt
  /\ fetches (emitted o) = 1%nat
  /\ logged_messages (emitted o)
     = [VStr ("sendMessageToLINE関数でエラー: " +:+ Offline.unreachable)].
Proof.
  intros s o.
  pose proof (sendMessageToLINE_outcome (HO := Offline.host) (Obj (config_of_rows settings))
                (VStr "hello") s s (Throw Offline.unreachable) eq_refl eq_refl) as H.
  cbv zeta in H. fold o in H. destruct H as (_ & F & L).
  destruct (L ltac:(vm_compute; reflexivity)) as [R M].
  split; [exact R | split; [exact F | exact M]].
Defined.

(** X13: no settings sheet. *)
Lemma run_without_settings_sheet_witness :
  let s := {| tabs := [(DATA_SHEET_NAME, []); (ERROR_LOG_SHEET_NAME, [])]; clock := jan4 |} in
  let run := checkReturnDatesAndNotify (HO := host false false) s in
  res run = Ok tt
  /\ logged_messages (emitted run) = [VStr "設定シートが見つかりません。"; VStr CONFIG_ERROR].
Proof.
  intros s run.
  destruct (run_without_settings_sheet (HO := host false false) s s s 0%N eq_refl eq_refl
              (Examples.in_memory_logger_works false)) as (R & M & _).
  split; [exact R | exact M].
Defined.

(** X14: no loan sheet. *)
Lemma run_without_loan_sheet_witness :
  let s := {| tabs := [(SETTINGS_SHEET_NAME, settings); (ERROR_LOG_SHEET_NAME, [])];
              clock := jan4 |} in
  let run := checkReturnDatesAndNotify (HO := host false false) s in
  res run = Ok tt
  /\ logged_messages (emitted run) = [VStr "返却期限シートが見つかりません。"]
  /\ fetches (emitted run) = 0%nat.
Proof.
  intros s run.
  assert (R : res (getConfig (HO := host false false) s) = Ok (Obj (config_of_rows settings)))
    by (vm_compute; reflexivity).
  assert (Sm : settings_missing (Obj (config_of_rows settings)) = Ok false)
    by (vm_compute; reflexivity).
  assert (N : host_now (Host := host false false) (final (getConfig (HO := host false false) s))
              = (jan4, s)) by (vm_compute; reflexivity).
  exact (run_without_loan_sheet (HO := host false false) s s s s _ jan4 0%N
           R Sm N eq_refl eq_refl (Examples.in_memory_logger_works false)).
Defined.

Lemma offline_logger_works msg s :
  res (logError (HO := Offline.host) msg s) = Ok tt.
Proof.
  unfold logError, bind, getActiveSpreadsheet, getSheetByName, insertSheet, appendRow, now,
    call, ret. simpl.
  destruct (find_tab ERROR_LOG_SHEET_NAME (tabs s) 0); reflexivity.
Qed.

(** X15: a book is due and the endpoint is out of reach. *)
Lemma run_with_failing_request_witness :
  let s := library settings [loan_row (VStr "Book A") (VDate (Some jan5))] in
  let run := checkReturnDatesAndNotify (HO := Offline.host) s in
  res run = Ok tt
  /\ fetches (emitted run) = 1%nat
  /\ logged_messages (emitted run)
     = [VStr ("sendMessageToLINE関数でエラー: " +:+ Offline.unreachable)].
Proof.
  intros s run.
  pose (o := and_then (getConfig (HO := Offline.host) s)
               (let* t := now in getBooksDueOnDate (tomorrow_of t))).
  assert (D : due_list (HO := Offline.host) s (Obj (config_of_rows settings))
                [VStr "Book A"] o).
  { repeat split; vm_compute; reflexivity. }
  apply (run_with_failing_request (HO := Offline.host) s (final o) _ _ o
           Offline.unreachable D ltac:(discriminate) eq_refl offline_logger_works).
Defined.

End MoreExamples.
